(** * xenia/ui/windowed_app_context_android.cc

    A shallow embedding of [xe::ui::AndroidWindowedAppContext]: the object
    that owns the UI thread looper callback pipe, the looper reference and
    the windowed app, together with the properties of its destruction
    protocol.

    Conventions of the embedding.
    - A C++ pointer is an [option handle]; [None] is [nullptr].
    - A file descriptor and every [int] / [ssize_t] is a [Z].
    - A call that leaves the class and acquires, releases, signals or logs
      something (system calls, the NDK looper, JNI references, logging, the
      app hooks, the base class) is recorded, in program order, as an
      [Event].  What a call into the platform returns is an input of the
      embedded function; a plain query ([AAssetManager_fromJava],
      [GetObjectClass], [GetMethodID], [ALooper_forThread],
      [AConfiguration_getSdkVersion]) contributes its result only.
    - [assert_null] / [assert_not_null] are checked-build diagnostics and are
      transparent here, as in a release build.
    - Dereferencing the owned [std::unique_ptr<WindowedApp>] while it is empty
      is a [Crash]. *)

From Stdlib Require Import ZArith String List Bool Lia.
Import ListNotations.
Local Open Scope Z_scope.

(** ** Platform constants (android/looper.h)

    The values the NDK gives to the names the file uses: the event bits
    tested by the callback and the identifier passed to [ALooper_addFd]. *)

Module ALooper.
Definition ALOOPER_EVENT_INPUT : Z := Z.shiftl 1 0.
Definition ALOOPER_EVENT_OUTPUT : Z := Z.shiftl 1 1.
Definition ALOOPER_EVENT_ERROR : Z := Z.shiftl 1 2.
Definition ALOOPER_EVENT_HANGUP : Z := Z.shiftl 1 3.
Definition ALOOPER_EVENT_INVALID : Z := Z.shiftl 1 4.
Definition ALOOPER_POLL_CALLBACK : Z := -2.
End ALooper.
Import ALooper.

(** ** Data model *)

Definition handle := positive.

(** [enum class UIThreadLooperCallbackCommand]. *)
Inductive UIThreadLooperCallbackCommand : Type :=
| kDestroy
| kExecutePendingFunctions.

(** The windowed app owned by the context.  Only what the context observes
    of it is kept: its identity and what its [OnInitialize] answers. *)
Record WindowedApp : Type := mkWindowedApp {
  app_id : nat;
  OnInitialize : bool
}.

(** The data members of [AndroidWindowedAppContext] used by the file. *)
Record Context : Type := mkContext {
  ui_thread_jni_env_ : option handle;
  asset_manager_jobject_ : option handle;
  asset_manager_ : option handle;
  configuration_ : option handle;
  android_base_initialized_ : bool;
  activity_ : option handle;
  activity_class_ : option handle;
  activity_method_finish_ : option handle;
  activity_window_ : option handle;
  ui_thread_looper_ : option handle;
  ui_thread_looper_callback_pipe_ : Z * Z;
  ui_thread_looper_callback_registered_ : bool;
  app_ : option WindowedApp
}.

(** Calls that leave the class, in the order they are made. *)
Inductive Event : Type :=
| EvAndroidLog (tag msg : string)
| EvXELOGE (msg : string)
| EvWrite (fd : Z) (command : UIThreadLooperCallbackCommand) (result : Z)
| EvRead (fd : Z) (result : Z)
| EvPipe (result : option (Z * Z))
| EvClose (fd : Z)
| EvLooperAcquire (looper : option handle)
| EvLooperRelease (looper : option handle)
| EvLooperAddFd (looper : option handle) (fd ident events : Z) (result : Z)
| EvLooperRemoveFd (looper : option handle) (fd : Z)
| EvLooperWake (looper : option handle)
| EvNewGlobalRef (env : option handle) (obj result : option handle)
| EvDeleteGlobalRef (env : option handle) (ref : option handle)
| EvDeleteLocalRef (env : option handle) (ref : option handle)
| EvCallVoidMethod (env : option handle) (obj method : option handle)
| EvReleaseStringUTFChars
| EvConfigurationNew (result : option handle)
| EvConfigurationFromAssetManager (config asset_manager : option handle)
| EvConfigurationDelete (config : option handle)
| EvInitializeAndroidAppFromMainThread (sdk_version : Z)
| EvShutdownAndroidAppFromMainThread
| EvCreateApp (result : option WindowedApp)
| EvOnInitialize (app : WindowedApp)
| EvInvokeOnDestroy (app : WindowedApp)
| EvQuitFromUIThread
| EvExecutePendingFunctionsFromUIThread
| EvOperatorDelete.

Inductive Fault : Type :=
| NullDereference.

(** The object in memory: its members, and whether it has been deleted. *)
Record Heap : Type := mkHeap {
  this : Context;
  live : bool
}.

(** ** The monad of member functions

    A member function runs on the object, may change it, emits events and
    either returns or crashes; a crash keeps the events emitted before it. *)

Inductive Result (A : Type) : Type :=
| Ok (a : A) (h : Heap) (t : list Event)
| Crash (f : Fault) (t : list Event).
Arguments Ok {A} a h t.
Arguments Crash {A} f t.

Definition M (A : Type) : Type := Heap -> Result A.

Definition ret {A} (a : A) : M A := fun h => Ok a h [].

Definition bind {A B} (m : M A) (k : A -> M B) : M B :=
  fun h =>
    match m h with
    | Ok a h1 t1 =>
        match k a h1 with
        | Ok b h2 t2 => Ok b h2 (t1 ++ t2)
        | Crash f t2 => Crash f (t1 ++ t2)
        end
    | Crash f t1 => Crash f t1
    end.

Declare Scope member_scope.
Delimit Scope member_scope with member.
Notation "x <- c1 ;; c2" := (bind c1 (fun x => c2))
  (at level 61, c1 at next level, right associativity) : member_scope.
Notation "c1 ;; c2" := (bind c1 (fun _ => c2))
  (at level 61, right associativity) : member_scope.
Local Open Scope member_scope.

Definition emit (e : Event) : M unit := fun h => Ok tt h [e].
Definition crash {A} (f : Fault) : M A := fun _ => Crash f [].
Definition gets {A} (field : Context -> A) : M A := fun h => Ok (field (this h)) h [].
Definition modify (f : Context -> Context) : M unit :=
  fun h => Ok tt (mkHeap (f (this h)) (live h)) [].
Definition mark_deleted : M unit := fun h => Ok tt (mkHeap (this h) false) [].

Definition trace_of {A} (r : Result A) : list Event :=
  match r with
  | Ok _ _ t => t
  | Crash _ t => t
  end.

Definition is_null {A} (p : option A) : bool :=
  match p with
  | Some _ => false
  | None => true
  end.

(** ** Assignments to the data members *)

Definition set_ui_thread_jni_env_ (v : option handle) (c : Context) : Context :=
  mkContext v (asset_manager_jobject_ c) (asset_manager_ c) (configuration_ c)
    (android_base_initialized_ c) (activity_ c) (activity_class_ c)
    (activity_method_finish_ c) (activity_window_ c) (ui_thread_looper_ c)
    (ui_thread_looper_callback_pipe_ c) (ui_thread_looper_callback_registered_ c)
    (app_ c).

Definition set_asset_manager_jobject_ (v : option handle) (c : Context) : Context :=
  mkContext (ui_thread_jni_env_ c) v (asset_manager_ c) (configuration_ c)
    (android_base_initialized_ c) (activity_ c) (activity_class_ c)
    (activity_method_finish_ c) (activity_window_ c) (ui_thread_looper_ c)
    (ui_thread_looper_callback_pipe_ c) (ui_thread_looper_callback_registered_ c)
    (app_ c).

Definition set_asset_manager_ (v : option handle) (c : Context) : Context :=
  mkContext (ui_thread_jni_env_ c) (asset_manager_jobject_ c) v (configuration_ c)
    (android_base_initialized_ c) (activity_ c) (activity_class_ c)
    (activity_method_finish_ c) (activity_window_ c) (ui_thread_looper_ c)
    (ui_thread_looper_callback_pipe_ c) (ui_thread_looper_callback_registered_ c)
    (app_ c).

Definition set_configuration_ (v : option handle) (c : Context) : Context :=
  mkContext (ui_thread_jni_env_ c) (asset_manager_jobject_ c) (asset_manager_ c) v
    (android_base_initialized_ c) (activity_ c) (activity_class_ c)
    (activity_method_finish_ c) (activity_window_ c) (ui_thread_looper_ c)
    (ui_thread_looper_callback_pipe_ c) (ui_thread_looper_callback_registered_ c)
    (app_ c).

Definition set_android_base_initialized_ (v : bool) (c : Context) : Context :=
  mkContext (ui_thread_jni_env_ c) (asset_manager_jobject_ c) (asset_manager_ c)
    (configuration_ c) v (activity_ c) (activity_class_ c)
    (activity_method_finish_ c) (activity_window_ c) (ui_thread_looper_ c)
    (ui_thread_looper_callback_pipe_ c) (ui_thread_looper_callback_registered_ c)
    (app_ c).

Definition set_activity_ (v : option handle) (c : Context) : Context :=
  mkContext (ui_thread_jni_env_ c) (asset_manager_jobject_ c) (asset_manager_ c)
    (configuration_ c) (android_base_initialized_ c) v (activity_class_ c)
    (activity_method_finish_ c) (activity_window_ c) (ui_thread_looper_ c)
    (ui_thread_looper_callback_pipe_ c) (ui_thread_looper_callback_registered_ c)
    (app_ c).

Definition set_activity_class_ (v : option handle) (c : Context) : Context :=
  mkContext (ui_thread_jni_env_ c) (asset_manager_jobject_ c) (asset_manager_ c)
    (configuration_ c) (android_base_initialized_ c) (activity_ c) v
    (activity_method_finish_ c) (activity_window_ c) (ui_thread_looper_ c)
    (ui_thread_looper_callback_pipe_ c) (ui_thread_looper_callback_registered_ c)
    (app_ c).

Definition set_activity_method_finish_ (v : option handle) (c : Context) : Context :=
  mkContext (ui_thread_jni_env_ c) (asset_manager_jobject_ c) (asset_manager_ c)
    (configuration_ c) (android_base_initialized_ c) (activity_ c)
    (activity_class_ c) v (activity_window_ c) (ui_thread_looper_ c)
    (ui_thread_looper_callback_pipe_ c) (ui_thread_looper_callback_registered_ c)
    (app_ c).

Definition set_activity_window_ (v : option handle) (c : Context) : Context :=
  mkContext (ui_thread_jni_env_ c) (asset_manager_jobject_ c) (asset_manager_ c)
    (configuration_ c) (android_base_initialized_ c) (activity_ c)
    (activity_class_ c) (activity_method_finish_ c) v (ui_thread_looper_ c)
    (ui_thread_looper_callback_pipe_ c) (ui_thread_looper_callback_registered_ c)
    (app_ c).

Definition set_ui_thread_looper_ (v : option handle) (c : Context) : Context :=
  mkContext (ui_thread_jni_env_ c) (asset_manager_jobject_ c) (asset_manager_ c)
    (configuration_ c) (android_base_initialized_ c) (activity_ c)
    (activity_class_ c) (activity_method_finish_ c) (activity_window_ c) v
    (ui_thread_looper_callback_pipe_ c) (ui_thread_looper_callback_registered_ c)
    (app_ c).

Definition set_ui_thread_looper_callback_pipe_ (v : Z * Z) (c : Context) : Context :=
  mkContext (ui_thread_jni_env_ c) (asset_manager_jobject_ c) (asset_manager_ c)
    (configuration_ c) (android_base_initialized_ c) (activity_ c)
    (activity_class_ c) (activity_method_finish_ c) (activity_window_ c)
    (ui_thread_looper_ c) v (ui_thread_looper_callback_registered_ c)
    (app_ c).

Definition set_ui_thread_looper_callback_registered_ (v : bool) (c : Context) : Context :=
  mkContext (ui_thread_jni_env_ c) (asset_manager_jobject_ c) (asset_manager_ c)
    (configuration_ c) (android_base_initialized_ c) (activity_ c)
    (activity_class_ c) (activity_method_finish_ c) (activity_window_ c)
    (ui_thread_looper_ c) (ui_thread_looper_callback_pipe_ c) v
    (app_ c).

Definition set_app_ (v : option WindowedApp) (c : Context) : Context :=
  mkContext (ui_thread_jni_env_ c) (asset_manager_jobject_ c) (asset_manager_ c)
    (configuration_ c) (android_base_initialized_ c) (activity_ c)
    (activity_class_ c) (activity_method_finish_ c) (activity_window_ c)
    (ui_thread_looper_ c) (ui_thread_looper_callback_pipe_ c)
    (ui_thread_looper_callback_registered_ c) v.

(** ** What the platform answers during [Initialize] *)

Record InitEnv : Type := mkInitEnv {
  NewGlobalRef_asset_manager : option handle;
  AAssetManager_fromJava : option handle;
  AConfiguration_new : option handle;
  AConfiguration_getSdkVersion : Z;
  NewGlobalRef_activity : option handle;
  GetObjectClass_activity : option handle;
  NewGlobalRef_activity_class : option handle;
  GetMethodID_finish : option handle;
  ALooper_forThread : option handle;
  (** [pipe] either fills the array and returns 0, or leaves it and fails. *)
  pipe_result : option (Z * Z);
  ALooper_addFd : Z
}.

(** [WindowedApp::Creator]: a function from the context to a
    [std::unique_ptr<WindowedApp>], which may be empty. *)
Definition Creator : Type := Context -> option WindowedApp.

(** The value of [JniActivityInitializeWindowedAppOnCreate]. *)
Inductive ContextPtr : Type :=
| nullptr
| app_context.

(** A context with every member empty: every pointer null, both
    descriptors -1, every flag false.  These are the values [Shutdown] tests
    each member against before releasing it, and the values it leaves. *)
Definition empty_context : Context :=
  mkContext None None None None false None None None None None (-1, -1) false None.

(** Modelled from the spec: the class declaration, with the initial values
    of the members, is in the header, which is not among the sources.  A
    context that has just been constructed is Uninitialized: it holds no
    looper, has no channel, is not registered and owns no app; every member
    is empty. *)
Definition new_context : Context := empty_context.

Definition operator_new : M unit := fun _ => Ok tt (mkHeap new_context true) [].

(** No object: the state in which the static entry point starts. *)
Definition no_object : Heap := mkHeap new_context false.

(** What the JVM and the app registry answer to the static entry point,
    and what the [write] of a deferred destruction returns. *)
Record CreateEnv : Type := mkCreateEnv {
  GetStringUTFChars : option string;
  GetCreator : string -> option Creator;
  init_env : InitEnv;
  destruction_write_result : Z
}.

(** A call made on the object from outside, with what its system calls
    return. *)
Inductive Call : Type :=
| CallNotifyUILoopOfPendingFunctions (write_result : Z)
| CallUIThreadLooperCallback (events read_result : Z)
    (read_command : UIThreadLooperCallbackCommand)
| CallPlatformQuitFromUIThread
| CallRequestDestruction (write_result : Z)
| CallJniActivityOnDestroy (write_result : Z).

(** ** Sample data *)

(** A context as [Initialize] leaves it when every step succeeds. *)
Definition initialized_context : Context :=
  mkContext (Some 1%positive) (Some 10%positive) (Some 11%positive)
    (Some 12%positive) true (Some 13%positive) (Some 15%positive)
    (Some 16%positive) None (Some 17%positive) (5, 6) true None.

(** The same context after the callback has unregistered itself. *)
Definition unregistered_context : Context :=
  set_ui_thread_looper_callback_registered_ false initialized_context.

(** A platform on which every step of [Initialize] succeeds. *)
Definition working_platform : InitEnv :=
  mkInitEnv (Some 10%positive) (Some 11%positive) (Some 12%positive) 30
    (Some 13%positive) (Some 14%positive) (Some 15%positive) (Some 16%positive)
    (Some 17%positive) (Some (5, 6)) 1.

(** An app whose [OnInitialize] fails, and the entry point's environment
    that creates it. *)
Definition failing_app : WindowedApp := mkWindowedApp 0 false.

Definition failing_app_env (destruction_write_result : Z) : CreateEnv :=
  mkCreateEnv (Some "xenia_demo"%string) (fun _ => Some (fun _ => Some failing_app))
    working_platform destruction_write_result.

(** An app whose [OnInitialize] succeeds, and an environment that creates
    it; a creator that returns an empty pointer. *)
Definition working_app : WindowedApp := mkWindowedApp 1 true.

Definition working_app_env : CreateEnv :=
  mkCreateEnv (Some "xenia_demo"%string) (fun _ => Some (fun _ => Some working_app))
    working_platform 1.

Definition null_creator : Creator := fun _ => None.

(** A platform on which [pipe] fails. *)
Definition platform_without_pipe : InitEnv :=
  mkInitEnv (Some 10%positive) (Some 11%positive) (Some 12%positive) 30
    (Some 13%positive) (Some 14%positive) (Some 15%positive) (Some 16%positive)
    (Some 17%positive) None 1.

Section AndroidWindowedAppContext.

(** [sizeof(UIThreadLooperCallbackCommand)]; the enum is declared in the
    header, so its size is a parameter. *)
Variable sizeof_command : positive.

Definition sizeof : Z := Z.pos sizeof_command.

Definition android_log_write (msg : string) : M unit :=
  emit (EvAndroidLog "AndroidWindowedAppContext" msg).

(** Modelled from the spec: [WindowedAppContext::QuitFromUIThread] of the
    base class is not part of the file.  It is "the Bridge's internal quit
    path": one call out of the class, which touches none of the members
    above. *)
Definition QuitFromUIThread : M unit := emit EvQuitFromUIThread.

(** Modelled from the spec:
    [WindowedAppContext::ExecutePendingFunctionsFromUIThread] of the base
    class is not part of the file.  It is "the externally supplied
    pending-work runner": one call out of the class. *)
Definition ExecutePendingFunctionsFromUIThread : M unit :=
  emit EvExecutePendingFunctionsFromUIThread.

(** [write_result] is what [write] returns.  [ssize_t != size_t] compares
    after conversion to the unsigned type, which is injective on the range
    of [ssize_t], hence the comparison in [Z]. *)
Definition NotifyUILoopOfPendingFunctions (write_result : Z) : M unit :=
  let command := kExecutePendingFunctions in
  pipe <- gets ui_thread_looper_callback_pipe_ ;;
  emit (EvWrite (snd pipe) command write_result) ;;
  if negb (write_result =? sizeof) then
    emit (EvXELOGE
      "AndroidWindowedAppContext: Failed to write a pending function execution command to the UI thread looper callback pipe")
  else
    looper <- gets ui_thread_looper_ ;;
    emit (EvLooperWake looper).

Definition PlatformQuitFromUIThread : M unit :=
  activity <- gets activity_ ;;
  finish <- gets activity_method_finish_ ;;
  if negb (is_null activity) && negb (is_null finish) then
    env <- gets ui_thread_jni_env_ ;;
    emit (EvCallVoidMethod env activity finish)
  else
    ret tt.

(** One iteration of [for (int& pipe_fd : ui_thread_looper_callback_pipe_)];
    the value is the new content of the array element. *)
Definition close_pipe_fd (pipe_fd : Z) : M Z :=
  if pipe_fd =? -1 then ret pipe_fd
  else emit (EvClose pipe_fd) ;; ret (-1).

Definition Shutdown : M unit :=
  app <- gets app_ ;;
  match app with
  | Some a => emit (EvInvokeOnDestroy a) ;; modify (set_app_ None)
  | None => ret tt
  end ;;
  modify (set_activity_window_ None) ;;
  registered <- gets ui_thread_looper_callback_registered_ ;;
  (if registered then
     looper <- gets ui_thread_looper_ ;;
     pipe <- gets ui_thread_looper_callback_pipe_ ;;
     emit (EvLooperRemoveFd looper (fst pipe)) ;;
     modify (set_ui_thread_looper_callback_registered_ false)
   else ret tt) ;;
  pipe <- gets ui_thread_looper_callback_pipe_ ;;
  fd0 <- close_pipe_fd (fst pipe) ;;
  modify (set_ui_thread_looper_callback_pipe_ (fd0, snd pipe)) ;;
  fd1 <- close_pipe_fd (snd pipe) ;;
  modify (set_ui_thread_looper_callback_pipe_ (fd0, fd1)) ;;
  looper <- gets ui_thread_looper_ ;;
  (if negb (is_null looper) then
     emit (EvLooperRelease looper) ;;
     modify (set_ui_thread_looper_ None)
   else ret tt) ;;
  modify (set_activity_method_finish_ None) ;;
  env <- gets ui_thread_jni_env_ ;;
  activity_class <- gets activity_class_ ;;
  (if negb (is_null activity_class) then
     emit (EvDeleteGlobalRef env activity_class) ;;
     modify (set_activity_class_ None)
   else ret tt) ;;
  activity <- gets activity_ ;;
  (if negb (is_null activity) then
     emit (EvDeleteGlobalRef env activity) ;;
     modify (set_activity_ None)
   else ret tt) ;;
  base_initialized <- gets android_base_initialized_ ;;
  (if base_initialized then
     emit EvShutdownAndroidAppFromMainThread ;;
     modify (set_android_base_initialized_ false)
   else ret tt) ;;
  configuration <- gets configuration_ ;;
  (if negb (is_null configuration) then
     emit (EvConfigurationDelete configuration) ;;
     modify (set_configuration_ None)
   else ret tt) ;;
  modify (set_asset_manager_ None) ;;
  asset_manager_jobject <- gets asset_manager_jobject_ ;;
  (if negb (is_null asset_manager_jobject) then
     emit (EvDeleteGlobalRef env asset_manager_jobject) ;;
     modify (set_asset_manager_jobject_ None)
   else ret tt) ;;
  modify (set_ui_thread_jni_env_ None).

(** [~AndroidWindowedAppContext() { Shutdown(); }] *)
Definition destructor : M unit := Shutdown.

(** [delete this] / [delete app_context]: the destructor, then the
    storage is given back. *)
Definition delete : M unit :=
  destructor ;;
  emit EvOperatorDelete ;;
  mark_deleted.

Definition RequestDestruction (write_result : Z) : M unit :=
  registered <- gets ui_thread_looper_callback_registered_ ;;
  if negb registered then
    delete
  else
    let command := kDestroy in
    pipe <- gets ui_thread_looper_callback_pipe_ ;;
    emit (EvWrite (snd pipe) command write_result) ;;
    if negb (write_result =? sizeof) then
      emit (EvXELOGE
        "AndroidWindowedAppContext: Failed to write a destruction command to the UI thread looper callback pipe") ;;
      delete
    else
      looper <- gets ui_thread_looper_ ;;
      emit (EvLooperWake looper).

Definition JniActivityOnDestroy (write_result : Z) : M unit :=
  app <- gets app_ ;;
  match app with
  | Some a => emit (EvInvokeOnDestroy a) ;; modify (set_app_ None)
  | None => ret tt
  end ;;
  RequestDestruction write_result.

(** [data] is the context the callback was registered with, the object
    itself.  [read_result] and [read_command] are what [read] returns and
    stores; they are consulted only where the source reaches the [read]. *)
Definition UIThreadLooperCallback (fd events : Z)
    (read_result : Z) (read_command : UIThreadLooperCallbackCommand) : M Z :=
  if negb (Z.land events
             (Z.lor ALOOPER_EVENT_ERROR
                (Z.lor ALOOPER_EVENT_HANGUP ALOOPER_EVENT_INVALID)) =? 0) then
    modify (set_ui_thread_looper_callback_registered_ false) ;;
    emit (EvXELOGE
      "AndroidWindowedAppContext: The UI thread looper callback pipe file descriptor has encountered an error condition during polling") ;;
    QuitFromUIThread ;;
    ret 0
  else if negb (negb (Z.land events ALOOPER_EVENT_INPUT =? 0)) then
    ret 1
  else
    emit (EvRead fd read_result) ;;
    if read_result =? sizeof then
      match read_command with
      | kDestroy =>
          modify (set_ui_thread_looper_callback_registered_ false) ;;
          delete ;;
          ret 0
      | kExecutePendingFunctions =>
          ExecutePendingFunctionsFromUIThread ;;
          ret 1
      end
    else if read_result =? -1 then
      modify (set_ui_thread_looper_callback_registered_ false) ;;
      emit (EvXELOGE
        "AndroidWindowedAppContext: The UI thread looper callback pipe file descriptor has encountered an error condition during reading") ;;
      QuitFromUIThread ;;
      ret 0
    else
      ret 1.

Definition InitializeApp (app_creator : Creator) : M bool :=
  self <- gets (fun c => c) ;;
  let created := app_creator self in
  emit (EvCreateApp created) ;;
  modify (set_app_ created) ;;
  app <- gets app_ ;;
  match app with
  | None => crash NullDereference
  | Some a =>
      emit (EvOnInitialize a) ;;
      if negb (OnInitialize a) then
        emit (EvInvokeOnDestroy a) ;;
        modify (set_app_ None) ;;
        ret false
      else
        ret true
  end.

(** [e] holds what each platform call of the function returns. *)
Definition Initialize (ui_thread_jni_env : handle)
    (activity asset_manager : option handle) (e : InitEnv) : M bool :=
  modify (set_ui_thread_jni_env_ (Some ui_thread_jni_env)) ;;
  env <- gets ui_thread_jni_env_ ;;
  emit (EvNewGlobalRef env asset_manager (NewGlobalRef_asset_manager e)) ;;
  modify (set_asset_manager_jobject_ (NewGlobalRef_asset_manager e)) ;;
  asset_manager_jobject <- gets asset_manager_jobject_ ;;
  if is_null asset_manager_jobject then
    android_log_write "Failed to create a global reference to the asset manager" ;;
    Shutdown ;;
    ret false
  else
  modify (set_asset_manager_ (AAssetManager_fromJava e)) ;;
  asset_manager' <- gets asset_manager_ ;;
  if is_null asset_manager' then
    android_log_write "Failed to create get the AAssetManager" ;;
    Shutdown ;;
    ret false
  else
  emit (EvConfigurationNew (AConfiguration_new e)) ;;
  modify (set_configuration_ (AConfiguration_new e)) ;;
  configuration <- gets configuration_ ;;
  if is_null configuration then
    android_log_write "Failed to create an AConfiguration" ;;
    Shutdown ;;
    ret false
  else
  emit (EvConfigurationFromAssetManager configuration asset_manager') ;;
  emit (EvInitializeAndroidAppFromMainThread (AConfiguration_getSdkVersion e)) ;;
  modify (set_android_base_initialized_ true) ;;
  emit (EvNewGlobalRef env activity (NewGlobalRef_activity e)) ;;
  modify (set_activity_ (NewGlobalRef_activity e)) ;;
  activity' <- gets activity_ ;;
  if is_null activity' then
    emit (EvXELOGE
      "AndroidWindowedAppContext: Failed to create a global reference to the activity") ;;
    Shutdown ;;
    ret false
  else
  let activity_class_local_ref := GetObjectClass_activity e in
  if is_null activity_class_local_ref then
    emit (EvXELOGE "AndroidWindowedAppContext: Failed to get the activity class") ;;
    Shutdown ;;
    ret false
  else
  emit (EvNewGlobalRef env activity_class_local_ref (NewGlobalRef_activity_class e)) ;;
  modify (set_activity_class_ (NewGlobalRef_activity_class e)) ;;
  emit (EvDeleteLocalRef env activity_class_local_ref) ;;
  activity_class <- gets activity_class_ ;;
  if is_null activity_class then
    emit (EvXELOGE
      "AndroidWindowedAppContext: Failed to create a global reference to the activity class") ;;
    Shutdown ;;
    ret false
  else
  modify (set_activity_method_finish_ (GetMethodID_finish e)) ;;
  finish <- gets activity_method_finish_ ;;
  let activity_ids_obtained := true && negb (is_null finish) in
  if negb activity_ids_obtained then
    emit (EvXELOGE "AndroidWindowedAppContext: Failed to get the activity class IDs") ;;
    Shutdown ;;
    ret false
  else
  modify (set_ui_thread_looper_ (ALooper_forThread e)) ;;
  looper <- gets ui_thread_looper_ ;;
  if is_null looper then
    emit (EvXELOGE "AndroidWindowedAppContext: Failed to get the UI thread looper") ;;
    Shutdown ;;
    ret false
  else
  emit (EvLooperAcquire looper) ;;
  emit (EvPipe (pipe_result e)) ;;
  match pipe_result e with
  | None =>
      emit (EvXELOGE
        "AndroidWindowedAppContext: Failed to create the UI thread looper callback pipe") ;;
      Shutdown ;;
      ret false
  | Some fds =>
      modify (set_ui_thread_looper_callback_pipe_ fds) ;;
      pipe <- gets ui_thread_looper_callback_pipe_ ;;
      emit (EvLooperAddFd looper (fst pipe) ALOOPER_POLL_CALLBACK
              ALOOPER_EVENT_INPUT (ALooper_addFd e)) ;;
      if negb (ALooper_addFd e =? 1) then
        emit (EvXELOGE
          "AndroidWindowedAppContext: Failed to add the callback to the UI thread looper") ;;
        Shutdown ;;
        ret false
      else
        modify (set_ui_thread_looper_callback_registered_ true) ;;
        ret true
  end.

Definition JniActivityInitializeWindowedAppOnCreate (jni_env : handle)
    (activity asset_manager : option handle) (e : CreateEnv) : M ContextPtr :=
  match GetStringUTFChars e with
  | None =>
      android_log_write
        "Failed to get the UTF-8 string for the windowed app identifier" ;;
      ret nullptr
  | Some windowed_app_identifier_c_str =>
      match GetCreator e windowed_app_identifier_c_str with
      | None =>
          emit (EvAndroidLog "AndroidWindowedAppContext"
                  ("Failed to get the creator for the windowed app "
                     ++ windowed_app_identifier_c_str)) ;;
          emit EvReleaseStringUTFChars ;;
          ret nullptr
      | Some app_creator =>
          emit EvReleaseStringUTFChars ;;
          operator_new ;;
          initialized <- Initialize jni_env activity asset_manager (init_env e) ;;
          if negb initialized then
            delete ;;
            ret nullptr
          else
            app_initialized <- InitializeApp app_creator ;;
            if negb app_initialized then
              RequestDestruction (destruction_write_result e) ;;
              ret nullptr
            else
              ret app_context
      end
  end.

(** ** The life of one context

    After the entry point has returned, the object is driven by calls from
    outside: the looper runs the callback, any thread asks for pending
    functions to be executed, the activity reports [onDestroy].  A call is
    made on the object only while it has not been deleted. *)

Definition call (c : Call) : M unit :=
  match c with
  | CallNotifyUILoopOfPendingFunctions write_result =>
      NotifyUILoopOfPendingFunctions write_result
  | CallUIThreadLooperCallback events read_result read_command =>
      pipe <- gets ui_thread_looper_callback_pipe_ ;;
      UIThreadLooperCallback (fst pipe) events read_result read_command ;;
      ret tt
  | CallPlatformQuitFromUIThread => PlatformQuitFromUIThread
  | CallRequestDestruction write_result => RequestDestruction write_result
  | CallJniActivityOnDestroy write_result => JniActivityOnDestroy write_result
  end.

Fixpoint calls (cs : list Call) : M unit :=
  match cs with
  | [] => ret tt
  | c :: cs' =>
      fun h =>
        if live h then (call c ;; calls cs') h
        else ret tt h
  end.

Definition lifetime (jni_env : handle) (activity asset_manager : option handle)
    (e : CreateEnv) (cs : list Call) : Result unit :=
  (JniActivityInitializeWindowedAppOnCreate jni_env activity asset_manager e ;;
   calls cs) no_object.

(** The looper serving the pipe.  For each command waiting in the pipe,
    oldest first, the looper invokes the callback once with the input event,
    and the [read] of that invocation takes the command in full ("the
    callback will be invoked again and again if there is still data after
    this read").  No invocation follows the one that deletes the object. *)
Definition serve (pending : list UIThreadLooperCallbackCommand) : M unit :=
  calls (map (fun command =>
                CallUIThreadLooperCallback ALOOPER_EVENT_INPUT sizeof command)
             pending).


(** ** Observations on traces *)

Definition count (p : Event -> bool) (t : list Event) : nat :=
  length (filter p t).

Definition is_LooperAcquire (e : Event) : bool :=
  match e with EvLooperAcquire _ => true | _ => false end.
Definition is_LooperRelease (e : Event) : bool :=
  match e with EvLooperRelease _ => true | _ => false end.
Definition is_InvokeOnDestroy (e : Event) : bool :=
  match e with EvInvokeOnDestroy _ => true | _ => false end.
Definition is_Write (e : Event) : bool :=
  match e with EvWrite _ _ _ => true | _ => false end.
Definition is_OperatorDelete (e : Event) : bool :=
  match e with EvOperatorDelete => true | _ => false end.
Definition is_QuitFromUIThread (e : Event) : bool :=
  match e with EvQuitFromUIThread => true | _ => false end.
Definition is_ExecutePendingFunctions (e : Event) : bool :=
  match e with EvExecutePendingFunctionsFromUIThread => true | _ => false end.

(** The descriptors handed to [close], in order. *)
Fixpoint closed_fds (t : list Event) : list Z :=
  match t with
  | [] => []
  | EvClose fd :: t' => fd :: closed_fds t'
  | _ :: t' => closed_fds t'
  end.

(** 1 while the context holds an acquired looper, 0 otherwise. *)
Definition looper_held (c : Context) : nat :=
  if is_null (ui_thread_looper_ c) then 0%nat else 1%nat.

(** 1 while the context owns an app, 0 otherwise. *)
Definition app_owned (c : Context) : nat :=
  if is_null (app_ c) then 0%nat else 1%nat.

(** What [Shutdown] calls, as a function of the members it finds. *)
Definition shutdown_events (c : Context) : list Event :=
  (match app_ c with Some a => [EvInvokeOnDestroy a] | None => [] end)
  ++ (if ui_thread_looper_callback_registered_ c
      then [EvLooperRemoveFd (ui_thread_looper_ c)
              (fst (ui_thread_looper_callback_pipe_ c))]
      else [])
  ++ (if fst (ui_thread_looper_callback_pipe_ c) =? -1 then []
      else [EvClose (fst (ui_thread_looper_callback_pipe_ c))])
  ++ (if snd (ui_thread_looper_callback_pipe_ c) =? -1 then []
      else [EvClose (snd (ui_thread_looper_callback_pipe_ c))])
  ++ (if is_null (ui_thread_looper_ c) then []
      else [EvLooperRelease (ui_thread_looper_ c)])
  ++ (if is_null (activity_class_ c) then []
      else [EvDeleteGlobalRef (ui_thread_jni_env_ c) (activity_class_ c)])
  ++ (if is_null (activity_ c) then []
      else [EvDeleteGlobalRef (ui_thread_jni_env_ c) (activity_ c)])
  ++ (if android_base_initialized_ c then [EvShutdownAndroidAppFromMainThread]
      else [])
  ++ (if is_null (configuration_ c) then []
      else [EvConfigurationDelete (configuration_ c)])
  ++ (if is_null (asset_manager_jobject_ c) then []
      else [EvDeleteGlobalRef (ui_thread_jni_env_ c) (asset_manager_jobject_ c)]).

(** ** Accounting over the life of a context *)

Definition acquires (t : list Event) : nat := count is_LooperAcquire t.
Definition releases (t : list Event) : nat := count is_LooperRelease t.
Definition destroys (t : list Event) : nat := count is_InvokeOnDestroy t.

(** A deleted object holds neither a looper nor an app. *)
Definition dead_is_empty (h : Heap) : Prop :=
  live h = false -> looper_held (this h) = 0%nat /\ app_owned (this h) = 0%nat.

(** What a member function run after construction does to the looper
    reference and to the app: it returns, acquires nothing, releases the
    looper only by giving it up, and destroys the app only by giving it
    up. *)
Definition settles_at {A} (m : M A) (h : Heap) : Prop :=
  exists a h' t,
    m h = Ok a h' t
    /\ acquires t = 0%nat
    /\ (releases t + looper_held (this h') = looper_held (this h))%nat
    /\ (destroys t + app_owned (this h') = app_owned (this h))%nat
    /\ (dead_is_empty h -> dead_is_empty h').

Definition settles {A} (m : M A) : Prop := forall h, settles_at m h.

(** [Initialize] gets as far as [ALooper_acquire]: every earlier step has
    succeeded and the thread has a looper. *)
Definition reaches_ALooper_acquire (e : InitEnv) : bool :=
  negb (is_null (NewGlobalRef_asset_manager e))
  && negb (is_null (AAssetManager_fromJava e))
  && negb (is_null (AConfiguration_new e))
  && negb (is_null (NewGlobalRef_activity e))
  && negb (is_null (GetObjectClass_activity e))
  && negb (is_null (NewGlobalRef_activity_class e))
  && negb (is_null (GetMethodID_finish e))
  && negb (is_null (ALooper_forThread e)).

(** The entry point gets as far as [ALooper_acquire]. *)
Definition acquires_looper (e : CreateEnv) : bool :=
  match GetStringUTFChars e with
  | Some windowed_app_identifier_c_str =>
      match GetCreator e windowed_app_identifier_c_str with
      | Some _ => reaches_ALooper_acquire (init_env e)
      | None => false
      end
  | None => false
  end.

(** ** Resources in a trace *)

Definition is_LooperRemoveFd (e : Event) : bool :=
  match e with EvLooperRemoveFd _ _ => true | _ => false end.
Definition is_LooperWake (e : Event) : bool :=
  match e with EvLooperWake _ => true | _ => false end.
Definition is_Read (e : Event) : bool :=
  match e with EvRead _ _ => true | _ => false end.
Definition is_ReleaseStringUTFChars (e : Event) : bool :=
  match e with EvReleaseStringUTFChars => true | _ => false end.
Definition is_InitializeAndroidApp (e : Event) : bool :=
  match e with EvInitializeAndroidAppFromMainThread _ => true | _ => false end.
Definition is_ShutdownAndroidApp (e : Event) : bool :=
  match e with EvShutdownAndroidAppFromMainThread => true | _ => false end.

(** The global references [NewGlobalRef] handed out (a null result is no
    reference), and the ones given to [DeleteGlobalRef], in order. *)
Definition global_refs_created (t : list Event) : list (option handle) :=
  flat_map (fun e =>
              match e with
              | EvNewGlobalRef _ _ (Some r) => [Some r]
              | _ => []
              end) t.

Definition global_refs_deleted (t : list Event) : list (option handle) :=
  flat_map (fun e =>
              match e with
              | EvDeleteGlobalRef _ r => [r]
              | _ => []
              end) t.

(** The configurations [AConfiguration_new] returned and the ones given to
    [AConfiguration_delete]. *)
Definition configurations_created (t : list Event) : list (option handle) :=
  flat_map (fun e =>
              match e with
              | EvConfigurationNew (Some c) => [Some c]
              | _ => []
              end) t.

Definition configurations_deleted (t : list Event) : list (option handle) :=
  flat_map (fun e =>
              match e with
              | EvConfigurationDelete c => [c]
              | _ => []
              end) t.

(** The descriptors [pipe] returned: read end, then write end. *)
Definition opened_fds (t : list Event) : list Z :=
  flat_map (fun e =>
              match e with
              | EvPipe (Some (r, w)) => [r; w]
              | _ => []
              end) t.

(** The descriptor is one that [close] may be given. *)
Definition is_open_fd (fd : Z) : bool := negb (fd =? -1).

(** Every step of [Initialize] succeeds. *)
Definition all_steps_succeed (e : InitEnv) : bool :=
  reaches_ALooper_acquire e
  && negb (is_null (pipe_result e))
  && (ALooper_addFd e =? 1).

(** The members after an [Initialize] in which every step succeeded. *)
Definition initialized_by (ui_thread_jni_env : handle) (e : InitEnv) : Context :=
  mkContext (Some ui_thread_jni_env) (NewGlobalRef_asset_manager e)
    (AAssetManager_fromJava e) (AConfiguration_new e) true
    (NewGlobalRef_activity e) (NewGlobalRef_activity_class e)
    (GetMethodID_finish e) None (ALooper_forThread e)
    (match pipe_result e with Some fds => fds | None => (-1, -1) end)
    true None.

(** The result of running a computation after the events [t0]. *)
Definition after_events {A} (t0 : list Event) (r : Result A) : Result A :=
  match r with
  | Ok a h t => Ok a h (t0 ++ t)
  | Crash f t => Crash f (t0 ++ t)
  end.

(** 1 for an object that exists, 0 for none. *)
Definition alive (h : Heap) : nat := if live h then 1%nat else 0%nat.

(** The object with its app given up. *)
Definition without_app (h : Heap) : Heap :=
  mkHeap (set_app_ None (this h)) (live h).

(** The object with the callback marked unregistered. *)
Definition unregistered (h : Heap) : Heap :=
  mkHeap (set_ui_thread_looper_callback_registered_ false (this h)) (live h).

(** ** The JNI environment in a trace *)

(** The [JNIEnv*] through which a JNI call of the context was made. *)
Definition jni_env_of (e : Event) : option (option handle) :=
  match e with
  | EvNewGlobalRef env _ _ => Some env
  | EvDeleteGlobalRef env _ => Some env
  | EvDeleteLocalRef env _ => Some env
  | EvCallVoidMethod env _ _ => Some env
  | _ => None
  end.

(** Every JNI call of the trace went through [env]. *)
Definition through_env (env : handle) (t : list Event) : Prop :=
  Forall (fun e => match jni_env_of e with
                   | Some used => used = Some env
                   | None => True
                   end) t.

(** The context can still reach [env] whenever it holds a reference that
    only a JNI call can release or use. *)
Definition env_kept (env : handle) (h : Heap) : Prop :=
  ui_thread_jni_env_ (this h) = Some env
  \/ (activity_ (this h) = None
      /\ activity_class_ (this h) = None
      /\ asset_manager_jobject_ (this h) = None).

(** The entry point gets as far as [new]. *)
Definition creates_context (e : CreateEnv) : bool :=
  match GetStringUTFChars e with
  | Some windowed_app_identifier_c_str =>
      negb (is_null (GetCreator e windowed_app_identifier_c_str))
  | None => false
  end.

(** ** Descriptors and the looper in a trace

    A ledger of what the process holds while a trace unfolds: the
    descriptors [pipe] has returned and [close] has not yet been given, and
    the looper that has been acquired and not yet released.  A step is
    refused when a descriptor is read, written, closed, added to or removed
    from the looper without being open, when the looper is woken, given a
    descriptor or released without being the one held, or when a looper is
    acquired while one is held. *)

Record Ledger : Type := mkLedger {
  open_fds : list Z;
  held_looper : option handle
}.

Definition empty_ledger : Ledger := mkLedger [] None.

Definition fd_is_open (fd : Z) (l : Ledger) : bool :=
  existsb (Z.eqb fd) (open_fds l).

Definition looper_is_held (looper : option handle) (l : Ledger) : bool :=
  match looper, held_looper l with
  | Some a, Some b => Pos.eqb a b
  | _, _ => false
  end.

Definition ledger_step (l : Ledger) (e : Event) : option Ledger :=
  match e with
  | EvPipe (Some (r, w)) => Some (mkLedger (r :: w :: open_fds l) (held_looper l))
  | EvClose fd =>
      if fd_is_open fd l
      then Some (mkLedger (filter (fun x => negb (x =? fd)) (open_fds l))
                   (held_looper l))
      else None
  | EvWrite fd _ _ => if fd_is_open fd l then Some l else None
  | EvRead fd _ => if fd_is_open fd l then Some l else None
  | EvLooperAcquire looper =>
      match looper, held_looper l with
      | Some _, None => Some (mkLedger (open_fds l) looper)
      | _, _ => None
      end
  | EvLooperRelease looper =>
      if looper_is_held looper l then Some (mkLedger (open_fds l) None) else None
  | EvLooperWake looper => if looper_is_held looper l then Some l else None
  | EvLooperAddFd looper fd _ _ _ =>
      if looper_is_held looper l && fd_is_open fd l then Some l else None
  | EvLooperRemoveFd looper fd =>
      if looper_is_held looper l && fd_is_open fd l then Some l else None
  | _ => Some l
  end.

Fixpoint ledger_run (l : Ledger) (t : list Event) : option Ledger :=
  match t with
  | [] => Some l
  | e :: t' =>
      match ledger_step l e with
      | Some l' => ledger_run l' t'
      | None => None
      end
  end.

(** What a context holds according to its members. *)
Definition ledger_of (c : Context) : Ledger :=
  mkLedger
    (filter is_open_fd
       [fst (ui_thread_looper_callback_pipe_ c);
        snd (ui_thread_looper_callback_pipe_ c)])
    (ui_thread_looper_ c).

(** The context has its pipe and its looper. *)
Definition ready (c : Context) : Prop :=
  fst (ui_thread_looper_callback_pipe_ c) <> -1
  /\ snd (ui_thread_looper_callback_pipe_ c) <> -1
  /\ fst (ui_thread_looper_callback_pipe_ c) <> snd (ui_thread_looper_callback_pipe_ c)
  /\ ui_thread_looper_ c <> None.

(** [pipe], when it succeeds, returns two different descriptors, neither
    of them -1. *)
Definition pipe_ok (e : InitEnv) : Prop :=
  match pipe_result e with
  | Some (r, w) => r <> -1 /\ w <> -1 /\ r <> w
  | None => True
  end.

(** ** Steps of a run

    What one stretch of a run, from the object [h] through the events [t]
    to the object [h'], keeps of each of the properties followed over a
    whole life. *)

(** The JNI environment: the calls go through [env], and it stays within
    reach. *)
Definition env_step (env : handle) (h : Heap) (t : list Event) (h' : Heap) : Prop :=
  env_kept env h -> through_env env t /\ env_kept env h'.

(** Deletion: the deletions made and the object left account for the
    object there was. *)
Definition delete_step (h : Heap) (t : list Event) (h' : Heap) : Prop :=
  (count is_OperatorDelete t + alive h' = alive h)%nat.

(** Descriptors and looper: nothing happens to an object that is gone;
    on a live object that has its pipe and looper the ledger accepts the
    events and ends as the members say, and the object either still has
    its pipe and looper or is gone with every member empty. *)
Definition ledger_kept (h : Heap) (t : list Event) (h' : Heap) : Prop :=
  (live h = false -> t = [] /\ h' = h)
  /\ (live h = true -> ready (this h) ->
      ledger_run (ledger_of (this h)) t = Some (ledger_of (this h'))
      /\ ((live h' = true /\ ready (this h'))
          \/ (live h' = false /\ this h' = empty_context))).

(** ** Basic facts *)

Lemma count_app p t1 t2 : count p (t1 ++ t2) = (count p t1 + count p t2)%nat.
Proof. unfold count. now rewrite filter_app, List.length_app. Qed.

Lemma count_nil p : count p [] = 0%nat.
Proof. reflexivity. Qed.

Lemma count_cons p e t :
  count p (e :: t) = ((if p e then 1 else 0) + count p t)%nat.
Proof. unfold count. cbn [filter]. now destruct (p e). Qed.

Lemma bind_Ok {A B} (m : M A) (k : A -> M B) h a h1 t1 :
  m h = Ok a h1 t1 ->
  bind m k h =
    match k a h1 with
    | Ok b h2 t2 => Ok b h2 (t1 ++ t2)
    | Crash f t2 => Crash f (t1 ++ t2)
    end.
Proof. intros E. unfold bind. now rewrite E. Qed.

(** [Shutdown] always returns; it leaves every member as [new] does and
    makes exactly the calls of [shutdown_events]. *)
Lemma Shutdown_eq h :
  Shutdown h = Ok tt (mkHeap empty_context (live h)) (shutdown_events (this h)).
Proof.
  destruct h as [[env amj am cfg base act cls fin win lp [p0 p1] reg app] lv].
  unfold Shutdown, shutdown_events, close_pipe_fd, bind, gets, modify, emit, ret.
  cbn [this live app_ ui_thread_looper_callback_registered_ ui_thread_looper_
       ui_thread_looper_callback_pipe_ activity_class_ activity_ fst snd
       android_base_initialized_ configuration_ asset_manager_jobject_
       ui_thread_jni_env_].
  destruct app, reg; cbn;
    destruct (Z.eqb_spec p0 (-1)), (Z.eqb_spec p1 (-1)); subst; cbn;
    destruct lp, cls, act, base, cfg, amj; reflexivity.
Qed.

Lemma delete_eq h :
  delete h =
    Ok tt (mkHeap empty_context false) (shutdown_events (this h) ++ [EvOperatorDelete]).
Proof.
  unfold delete, destructor.
  rewrite (bind_Ok _ _ _ _ _ _ (Shutdown_eq h)).
  reflexivity.
Qed.

Ltac count_shutdown_events :=
  intros c; destruct c as [env amj am cfg base act cls fin win lp [p0 p1] reg app];
  unfold shutdown_events, looper_held, app_owned; cbn;
  destruct app, reg, (p0 =? -1), (p1 =? -1), lp, cls, act, base, cfg, amj;
  reflexivity.

Lemma shutdown_events_writes c : count is_Write (shutdown_events c) = 0%nat.
Proof. revert c. count_shutdown_events. Qed.

Lemma shutdown_events_deletes c : count is_OperatorDelete (shutdown_events c) = 0%nat.
Proof. revert c. count_shutdown_events. Qed.

Lemma shutdown_events_acquires c : count is_LooperAcquire (shutdown_events c) = 0%nat.
Proof. revert c. count_shutdown_events. Qed.

Lemma shutdown_events_releases c :
  count is_LooperRelease (shutdown_events c) = looper_held c.
Proof. revert c. count_shutdown_events. Qed.

Lemma shutdown_events_destroys c :
  count is_InvokeOnDestroy (shutdown_events c) = app_owned c.
Proof. revert c. count_shutdown_events. Qed.

Lemma shutdown_events_runs c :
  count is_ExecutePendingFunctions (shutdown_events c) = 0%nat.
Proof. revert c. count_shutdown_events. Qed.

Lemma shutdown_events_empty_context : shutdown_events empty_context = [].
Proof. reflexivity. Qed.

Lemma shutdown_events_closed_fds c :
  closed_fds (shutdown_events c) =
    filter (fun fd => negb (fd =? -1))
      [fst (ui_thread_looper_callback_pipe_ c); snd (ui_thread_looper_callback_pipe_ c)].
Proof.
  destruct c as [env amj am cfg base act cls fin win lp [p0 p1] reg app].
  unfold shutdown_events; cbn.
  destruct app, reg, (p0 =? -1), (p1 =? -1), lp, cls, act, base, cfg, amj;
    reflexivity.
Qed.

(** The error, hang-up and invalid bits are tested together. *)
Lemma error_condition_iff events :
  Z.land events
    (Z.lor ALOOPER_EVENT_ERROR (Z.lor ALOOPER_EVENT_HANGUP ALOOPER_EVENT_INVALID)) <> 0
  <-> (Z.land events ALOOPER_EVENT_ERROR <> 0
       \/ Z.land events ALOOPER_EVENT_HANGUP <> 0
       \/ Z.land events ALOOPER_EVENT_INVALID <> 0).
Proof.
  rewrite !Z.land_lor_distr_r, !Z.lor_eq_0_iff.
  split.
  - intros H.
    destruct (Z.eq_dec (Z.land events ALOOPER_EVENT_ERROR) 0) as [E1|E1]; [|now left].
    destruct (Z.eq_dec (Z.land events ALOOPER_EVENT_HANGUP) 0) as [E2|E2];
      [|now right; left].
    right; right. intros E3. apply H. now repeat split.
  - intros [H|[H|H]] (E1 & E2 & E3); now apply H.
Qed.

(** The callback reaches its [read] exactly when no error bit is set and
    the input bit is. *)
Lemma UIThreadLooperCallback_reads fd events read_result read_command h :
  In (EvRead fd read_result)
     (trace_of (UIThreadLooperCallback fd events read_result read_command h))
  <-> (Z.land events
         (Z.lor ALOOPER_EVENT_ERROR
            (Z.lor ALOOPER_EVENT_HANGUP ALOOPER_EVENT_INVALID)) = 0
       /\ Z.land events ALOOPER_EVENT_INPUT <> 0).
Proof.
  unfold UIThreadLooperCallback.
  destruct (Z.eqb_spec (Z.land events
    (Z.lor ALOOPER_EVENT_ERROR (Z.lor ALOOPER_EVENT_HANGUP ALOOPER_EVENT_INVALID))) 0)
    as [E|E]; cbn [negb].
  - destruct (Z.eqb_spec (Z.land events ALOOPER_EVENT_INPUT) 0) as [I|I]; cbn [negb].
    + cbn. split; [intros []|intros [_ H]; now elim H].
    + split; [intros _; now split|intros _].
      unfold bind at 1. cbn [emit].
      match goal with
      | |- context [match ?m with Ok _ _ _ => _ | Crash _ _ => _ end] =>
          destruct m; cbn; now left
      end.
  - cbn. split; [intros [H|[H|[]]]; discriminate H|intros [H _]; now elim E].
Qed.

Local Arguments Shutdown : simpl never.
Local Arguments delete : simpl never.

Lemma calls_deleted cs c : calls cs (mkHeap c false) = Ok tt (mkHeap c false) [].
Proof. destruct cs; reflexivity. Qed.

Lemma input_event_is_readable :
  Z.land ALOOPER_EVENT_INPUT
    (Z.lor ALOOPER_EVENT_ERROR (Z.lor ALOOPER_EVENT_HANGUP ALOOPER_EVENT_INVALID)) = 0
  /\ Z.land ALOOPER_EVENT_INPUT ALOOPER_EVENT_INPUT <> 0.
Proof. split; [reflexivity|discriminate]. Qed.

(** Serving a pending-function command: the object is as before. *)
Lemma serve_pending h :
  call (CallUIThreadLooperCallback ALOOPER_EVENT_INPUT sizeof kExecutePendingFunctions) h =
    Ok tt h
      [EvRead (fst (ui_thread_looper_callback_pipe_ (this h))) sizeof;
       EvExecutePendingFunctionsFromUIThread].
Proof.
  unfold call, UIThreadLooperCallback.
  destruct input_event_is_readable as [-> Hin].
  change (0 =? 0) with true. cbn [negb].
  destruct (Z.eqb_spec (Z.land ALOOPER_EVENT_INPUT ALOOPER_EVENT_INPUT) 0) as [I|_];
    [now elim Hin|]. cbn [negb].
  unfold bind, gets, emit, ret, ExecutePendingFunctionsFromUIThread.
  rewrite Z.eqb_refl. reflexivity.
Qed.

(** Serving the destruction command: the object is shut down and deleted. *)
Lemma serve_destroy h :
  call (CallUIThreadLooperCallback ALOOPER_EVENT_INPUT sizeof kDestroy) h =
    Ok tt (mkHeap empty_context false)
      ([EvRead (fst (ui_thread_looper_callback_pipe_ (this h))) sizeof]
       ++ shutdown_events
            (set_ui_thread_looper_callback_registered_ false (this h))
       ++ [EvOperatorDelete]).
Proof.
  unfold call, UIThreadLooperCallback.
  destruct input_event_is_readable as [-> Hin].
  change (0 =? 0) with true. cbn [negb].
  destruct (Z.eqb_spec (Z.land ALOOPER_EVENT_INPUT ALOOPER_EVENT_INPUT) 0) as [I|_];
    [now elim Hin|]. cbn [negb].
  unfold bind at 1. cbn [gets]. unfold bind at 1. unfold bind at 1. cbn [emit].
  rewrite Z.eqb_refl. unfold bind at 1. cbn [modify].
  rewrite (bind_Ok _ _ _ _ _ _ (delete_eq _)). cbn [ret this].
  now rewrite !app_nil_r.
Qed.

(** The pipe holds [n] pending-function commands, then the destruction
    command: the looper runs the pending-function runner [n] times with the
    object alive, and the next invocation deletes it, once. *)
Lemma serve_until_destroy n later h :
  live h = true ->
  exists t,
    serve (repeat kExecutePendingFunctions n ++ kDestroy :: later) h =
      Ok tt (mkHeap empty_context false) t
    /\ count is_OperatorDelete t = 1%nat
    /\ count is_ExecutePendingFunctions t = n.
Proof.
  intros Hlive. unfold serve.
  induction n as [|n IH]; cbn [repeat app map calls]; rewrite Hlive.
  - rewrite (bind_Ok _ _ _ _ _ _ (serve_destroy h)), calls_deleted.
    eexists. split; [reflexivity|].
    rewrite !count_app, shutdown_events_deletes, shutdown_events_runs.
    split; reflexivity.
  - rewrite (bind_Ok _ _ _ _ _ _ (serve_pending h)).
    destruct IH as (t & -> & Hd & He).
    eexists. split; [reflexivity|].
    rewrite !count_app, Hd, He. split; reflexivity.
Qed.

(** ** Requesting destruction *)

(** C1 (as amended).  When the callback is registered and the [write] of
    the destruction command transfers [sizeof(command)] bytes,
    [RequestDestruction] deletes nothing: it leaves the object as it is,
    having written [kDestroy] to the write end and woken the looper.  The
    object is deleted by the callback invocation that reads [kDestroy],
    and a callback invocation deletes a live object only in that case.
    With the pipe served in order, that is the invocation after those for
    the pending-function commands written earlier, and it deletes once. *)
Theorem RequestDestruction_registered_defers write_result h :
  ui_thread_looper_callback_registered_ (this h) = true ->
  write_result = sizeof ->
  RequestDestruction write_result h =
    Ok tt h
      [EvWrite (snd (ui_thread_looper_callback_pipe_ (this h))) kDestroy sizeof;
       EvLooperWake (ui_thread_looper_ (this h))]
  /\ (forall fd events h1,
        Z.land events
          (Z.lor ALOOPER_EVENT_ERROR
             (Z.lor ALOOPER_EVENT_HANGUP ALOOPER_EVENT_INVALID)) = 0 ->
        Z.land events ALOOPER_EVENT_INPUT <> 0 ->
        exists t,
          UIThreadLooperCallback fd events sizeof kDestroy h1 =
            Ok 0 (mkHeap empty_context false) t
          /\ count is_OperatorDelete t = 1%nat)
  /\ (forall fd events read_result read_command h1 r h2 t,
        live h1 = true ->
        UIThreadLooperCallback fd events read_result read_command h1 = Ok r h2 t ->
        live h2 = false ->
        In (EvRead fd read_result) t /\ read_result = sizeof
        /\ read_command = kDestroy /\ r = 0)
  /\ (live h = true ->
      forall n later,
        exists t,
          serve (repeat kExecutePendingFunctions n ++ kDestroy :: later) h =
            Ok tt (mkHeap empty_context false) t
          /\ count is_OperatorDelete t = 1%nat
          /\ count is_ExecutePendingFunctions t = n).
Proof.
  intros Hreg Hwr. subst write_result.
  split; [|split; [|split; [|intros Hlive n later; now apply serve_until_destroy]]].
  - unfold RequestDestruction, bind, gets, emit.
    rewrite Hreg. cbn [negb]. rewrite Z.eqb_refl. cbn [negb app].
    reflexivity.
  - intros fd events h1 Herr Hin.
    unfold UIThreadLooperCallback.
    rewrite Herr. change (0 =? 0) with true. cbn [negb].
    destruct (Z.eqb_spec (Z.land events ALOOPER_EVENT_INPUT) 0) as [I|_];
      [now elim Hin|]. cbn [negb].
    unfold bind at 1. cbn [emit]. rewrite Z.eqb_refl.
    unfold bind at 1. cbn [modify].
    rewrite (bind_Ok _ _ _ _ _ _ (delete_eq _)). cbn [ret app].
    eexists. split; [reflexivity|].
    rewrite !app_nil_r.
    change (EvRead fd sizeof :: ?l) with ([EvRead fd sizeof] ++ l).
    rewrite !count_app, shutdown_events_deletes. reflexivity.
  - intros fd events read_result read_command h1 r h2 t Hlive.
    unfold UIThreadLooperCallback.
    destruct (negb (Z.land events _ =? 0)).
    { cbn. intros E; inversion E; subst; cbn. congruence. }
    destruct (negb (negb (Z.land events ALOOPER_EVENT_INPUT =? 0))).
    { cbn. intros E; inversion E; subst. congruence. }
    unfold bind at 1. cbn [emit].
    destruct (Z.eqb_spec read_result sizeof) as [R|R].
    + destruct read_command.
      * unfold bind at 1. cbn [modify].
        rewrite (bind_Ok _ _ _ _ _ _ (delete_eq _)). cbn [ret app].
        intros E; inversion E; subst. intros _.
        repeat split; try reflexivity. now left.
      * cbn. intros E; inversion E; subst. congruence.
    + destruct (read_result =? -1).
      * cbn. intros E; inversion E; subst; cbn. congruence.
      * cbn. intros E; inversion E; subst. congruence.
Qed.

(** C2.  When the callback is not registered, [RequestDestruction] deletes
    the object before it returns: the destructor runs [Shutdown], the
    storage is released once, and nothing is written to the pipe; the
    result of [write] plays no part. *)
Theorem RequestDestruction_unregistered_deletes write_result h :
  ui_thread_looper_callback_registered_ (this h) = false ->
  exists t,
    RequestDestruction write_result h = Ok tt (mkHeap empty_context false) t
    /\ t = shutdown_events (this h) ++ [EvOperatorDelete]
    /\ count is_OperatorDelete t = 1%nat
    /\ count is_Write t = 0%nat.
Proof.
  intros Hreg. eexists. split; [|split; [reflexivity|]].
  - unfold RequestDestruction, bind at 1, gets. rewrite Hreg. cbn [negb].
    rewrite delete_eq. cbn [app]. reflexivity.
  - rewrite !count_app, shutdown_events_deletes, shutdown_events_writes.
    split; reflexivity.
Qed.

(** ** The looper callback *)

(** C3.  An error, hang-up or invalid condition among the events, and a
    [read] that returns -1, are handled in the same way: the registration
    flag becomes false, the failure is logged, [QuitFromUIThread] is called
    once, and the callback returns 0.  The object is not deleted. *)
Theorem UIThreadLooperCallback_fatal fd events read_result read_command h :
  (Z.land events ALOOPER_EVENT_ERROR <> 0
   \/ Z.land events ALOOPER_EVENT_HANGUP <> 0
   \/ Z.land events ALOOPER_EVENT_INVALID <> 0)
  \/ (In (EvRead fd read_result)
        (trace_of (UIThreadLooperCallback fd events read_result read_command h))
      /\ read_result = -1) ->
  exists reads msg,
    UIThreadLooperCallback fd events read_result read_command h =
      Ok 0
        (mkHeap (set_ui_thread_looper_callback_registered_ false (this h)) (live h))
        (reads ++ [EvXELOGE msg; EvQuitFromUIThread])
    /\ (reads = [] \/ reads = [EvRead fd (-1)])
    /\ ui_thread_looper_callback_registered_
         (set_ui_thread_looper_callback_registered_ false (this h)) = false
    /\ count is_QuitFromUIThread (reads ++ [EvXELOGE msg; EvQuitFromUIThread]) = 1%nat.
Proof.
  intros [Herr|[Hread Hrd]].
  - apply error_condition_iff in Herr.
    exists [], "AndroidWindowedAppContext: The UI thread looper callback pipe file descriptor has encountered an error condition during polling"%string.
    unfold UIThreadLooperCallback.
    destruct (Z.eqb_spec (Z.land events
      (Z.lor ALOOPER_EVENT_ERROR (Z.lor ALOOPER_EVENT_HANGUP ALOOPER_EVENT_INVALID))) 0)
      as [E|_]; [now elim Herr|].
    cbn. repeat split. now left.
  - apply UIThreadLooperCallback_reads in Hread. destruct Hread as [Herr Hin].
    subst read_result.
    exists [EvRead fd (-1)], "AndroidWindowedAppContext: The UI thread looper callback pipe file descriptor has encountered an error condition during reading"%string.
    unfold UIThreadLooperCallback.
    rewrite Herr. change (0 =? 0) with true. cbn [negb].
    destruct (Z.eqb_spec (Z.land events ALOOPER_EVENT_INPUT) 0) as [I|_];
      [now elim Hin|].
    cbn [negb]. change (-1 =? sizeof) with false.
    cbn. repeat split. now right.
Qed.

(** C4.  A [read] that transfers neither [sizeof(command)] bytes nor -1
    dispatches nothing: the callback returns 1 and, apart from the [read]
    itself, makes no call and changes no member; the object stays
    registered and alive. *)
Theorem UIThreadLooperCallback_partial_read fd events read_result read_command h :
  In (EvRead fd read_result)
     (trace_of (UIThreadLooperCallback fd events read_result read_command h)) ->
  read_result <> sizeof ->
  read_result <> -1 ->
  UIThreadLooperCallback fd events read_result read_command h =
    Ok 1 h [EvRead fd read_result].
Proof.
  intros Hread Hsz Herr.
  apply UIThreadLooperCallback_reads in Hread. destruct Hread as [E Hin].
  unfold UIThreadLooperCallback.
  rewrite E. change (0 =? 0) with true. cbn [negb].
  destruct (Z.eqb_spec (Z.land events ALOOPER_EVENT_INPUT) 0) as [I|_];
    [now elim Hin|].
  cbn [negb].
  destruct (Z.eqb_spec read_result sizeof) as [R|_]; [now elim Hsz|].
  destruct (Z.eqb_spec read_result (-1)) as [R|_]; [now elim Herr|].
  reflexivity.
Qed.

(** ** Waking the looper *)

(** C5.  When the [write] of the pending-function command does not transfer
    [sizeof(command)] bytes, [NotifyUILoopOfPendingFunctions] logs the
    failure and returns: the [write] is its only system call (it is not
    repeated and the looper is not woken), the function does not crash, and
    no member changes. *)
Theorem NotifyUILoopOfPendingFunctions_write_failure write_result h :
  write_result <> sizeof ->
  exists msg,
    NotifyUILoopOfPendingFunctions write_result h =
      Ok tt h
        [EvWrite (snd (ui_thread_looper_callback_pipe_ (this h)))
           kExecutePendingFunctions write_result;
         EvXELOGE msg].
Proof.
  intros Hwr. eexists.
  unfold NotifyUILoopOfPendingFunctions.
  unfold bind, gets, emit.
  destruct (Z.eqb_spec write_result sizeof) as [E|_]; [now elim Hwr|].
  cbn. reflexivity.
Qed.

(** ** Initializing the app *)

(** C9.  [InitializeApp] calls [OnInitialize] through the pointer the
    creator returned without testing it: the call crashes on the null
    dereference exactly when the creator returns an empty pointer, and
    returns exactly when it returns an app. *)
Theorem InitializeApp_dereferences_unchecked app_creator h :
  (app_creator (this h) = None <->
     InitializeApp app_creator h = Crash NullDereference [EvCreateApp None])
  /\ (app_creator (this h) <> None <->
        exists r h' t, InitializeApp app_creator h = Ok r h' t).
Proof.
  unfold InitializeApp, bind, gets, emit, modify, crash, ret.
  cbn [this live app_ set_app_ app].
  destruct (app_creator (this h)) as [a|]; split; split.
  - discriminate.
  - destruct (OnInitialize a); discriminate.
  - intros _. destruct (OnInitialize a); cbn; eauto.
  - discriminate.
  - reflexivity.
  - reflexivity.
  - intros H. now elim H.
  - intros (r & h' & t & E). discriminate E.
Qed.

(** ** What the callback returns *)

(** C10.  The callback returns 0 or 1, and which one depends on its
    arguments and on what [read] returns only.  It returns 0 exactly when
    the invocation makes the registration flag false whatever the flag was;
    when it returns 1 the flag is what it was.  With no error bit and no
    input bit it returns 1, reads nothing, and changes nothing. *)
Theorem UIThreadLooperCallback_return_and_registration
    fd events read_result read_command :
  exists r,
    (r = 0 \/ r = 1)
    /\ (forall h, exists h' t,
          UIThreadLooperCallback fd events read_result read_command h = Ok r h' t
          /\ (r = 0 -> ui_thread_looper_callback_registered_ (this h') = false)
          /\ (r = 1 ->
              ui_thread_looper_callback_registered_ (this h') =
                ui_thread_looper_callback_registered_ (this h)))
    /\ (r = 0 <->
        forall h r' h' t,
          UIThreadLooperCallback fd events read_result read_command h = Ok r' h' t ->
          ui_thread_looper_callback_registered_ (this h') = false)
    /\ (Z.land events
          (Z.lor ALOOPER_EVENT_ERROR
             (Z.lor ALOOPER_EVENT_HANGUP ALOOPER_EVENT_INVALID)) = 0 ->
        Z.land events ALOOPER_EVENT_INPUT = 0 ->
        r = 1
        /\ forall h,
             UIThreadLooperCallback fd events read_result read_command h = Ok 1 h []).
Proof.
  pose (registered_heap :=
          mkHeap (set_ui_thread_looper_callback_registered_ true empty_context) true).
  unfold UIThreadLooperCallback.
  destruct (Z.eqb_spec (Z.land events
    (Z.lor ALOOPER_EVENT_ERROR (Z.lor ALOOPER_EVENT_HANGUP ALOOPER_EVENT_INVALID))) 0)
    as [E|E]; cbn [negb].
  2:{ exists 0. split; [now left|]. split; [|split].
      - intros h. cbn. do 2 eexists. split; [reflexivity|].
        split; [reflexivity|discriminate].
      - split; [|reflexivity]. intros _ h r' h' t. cbn.
        intros H; inversion H; reflexivity.
      - intros E'. now elim E. }
  destruct (Z.eqb_spec (Z.land events ALOOPER_EVENT_INPUT) 0) as [I|I]; cbn [negb].
  { exists 1. split; [now right|]. split; [|split].
    - intros h. cbn. do 2 eexists. split; [reflexivity|].
      split; [discriminate|reflexivity].
    - split; [discriminate|]. intros H.
      specialize (H registered_heap 1 registered_heap [] eq_refl).
      discriminate H.
    - intros _ _. split; [reflexivity|]. intros h. reflexivity. }
  destruct (Z.eqb_spec read_result sizeof) as [R|R].
  - destruct read_command.
    + exists 0. split; [now left|]. split; [|split].
      * intros h. unfold bind at 1. cbn [emit]. unfold bind at 1. cbn [modify].
        rewrite (bind_Ok _ _ _ _ _ _ (delete_eq _)). cbn [ret].
        do 2 eexists. split; [reflexivity|]. split; [reflexivity|discriminate].
      * split; [|reflexivity]. intros _ h r' h' t.
        unfold bind at 1. cbn [emit]. unfold bind at 1. cbn [modify].
        rewrite (bind_Ok _ _ _ _ _ _ (delete_eq _)). cbn [ret].
        intros H; inversion H; reflexivity.
      * intros _ I'. now elim I.
    + exists 1. split; [now right|]. split; [|split].
      * intros h. cbn. do 2 eexists. split; [reflexivity|].
        split; [discriminate|reflexivity].
      * split; [discriminate|]. intros H.
        specialize (H registered_heap 1 registered_heap
                      [EvRead fd read_result; EvExecutePendingFunctionsFromUIThread]
                      eq_refl).
        discriminate H.
      * intros _ I'. now elim I.
  - destruct (Z.eqb_spec read_result (-1)) as [R1|R1].
    + exists 0. split; [now left|]. split; [|split].
      * intros h. cbn. do 2 eexists. split; [reflexivity|].
        split; [reflexivity|discriminate].
      * split; [|reflexivity]. intros _ h r' h' t. cbn.
        intros H; inversion H; reflexivity.
      * intros _ I'. now elim I.
    + exists 1. split; [now right|]. split; [|split].
      * intros h. cbn. do 2 eexists. split; [reflexivity|].
        split; [discriminate|reflexivity].
      * split; [discriminate|]. intros H.
        specialize (H registered_heap 1 registered_heap [EvRead fd read_result] eq_refl).
        discriminate H.
      * intros _ I'. now elim I.
Qed.

(** ** Shutdown *)

(** C8.  [Shutdown] always returns.  It closes each end of the pipe that
    is open (not -1), in order, and leaves every member empty: both
    descriptors -1, every pointer null, every flag false.  Run again on the
    state it leaves, it makes no call at all and changes nothing, so two
    [Shutdown]s in a row do what one does. *)
Theorem Shutdown_idempotent h :
  exists h' t,
    Shutdown h = Ok tt h' t
    /\ closed_fds t =
         filter (fun fd => negb (fd =? -1))
           [fst (ui_thread_looper_callback_pipe_ (this h));
            snd (ui_thread_looper_callback_pipe_ (this h))]
    /\ count is_LooperRelease t = looper_held (this h)
    /\ live h' = live h
    /\ ui_thread_looper_callback_pipe_ (this h') = (-1, -1)
    /\ ui_thread_looper_ (this h') = None
    /\ ui_thread_looper_callback_registered_ (this h') = false
    /\ app_ (this h') = None
    /\ activity_window_ (this h') = None
    /\ activity_method_finish_ (this h') = None
    /\ activity_class_ (this h') = None
    /\ activity_ (this h') = None
    /\ android_base_initialized_ (this h') = false
    /\ configuration_ (this h') = None
    /\ asset_manager_ (this h') = None
    /\ asset_manager_jobject_ (this h') = None
    /\ ui_thread_jni_env_ (this h') = None
    /\ Shutdown h' = Ok tt h' []
    /\ (Shutdown ;; Shutdown) h = Shutdown h.
Proof.
  exists (mkHeap empty_context (live h)), (shutdown_events (this h)).
  split; [apply Shutdown_eq|].
  split; [apply shutdown_events_closed_fds|].
  split; [apply shutdown_events_releases|].
  repeat (split; [reflexivity|]).
  rewrite (bind_Ok _ _ _ _ _ _ (Shutdown_eq h)).
  rewrite !Shutdown_eq. cbn [this live].
  now rewrite shutdown_events_empty_context, app_nil_r.
Qed.

Local Arguments shutdown_events : simpl never.

Local Arguments count : simpl never.

Create Rewrite HintDb tally.
Hint Rewrite count_cons count_app count_nil shutdown_events_acquires
  shutdown_events_releases shutdown_events_destroys : tally.

Ltac tally :=
  unfold acquires, releases, destroys, dead_is_empty;
  autorewrite with tally;
  unfold looper_held, app_owned;
  cbn;
  repeat match goal with |- _ /\ _ => split end;
  try reflexivity; try lia; try (intros; discriminate); try tauto.

Ltac tally_in_context :=
  unfold acquires, releases, destroys, dead_is_empty in *;
  autorewrite with tally in *;
  unfold looper_held, app_owned in *;
  cbn in *;
  repeat match goal with |- _ /\ _ => split end;
  try reflexivity; try lia; try (intros; congruence); try tauto.

Lemma settles_at_bind {A B} (m : M A) (k : A -> M B) h :
  settles_at m h ->
  (forall a h1 t1, m h = Ok a h1 t1 -> settles_at (k a) h1) ->
  settles_at (bind m k) h.
Proof.
  intros (a & h1 & t1 & E1 & A1 & R1 & D1 & L1) Hk.
  destruct (Hk a h1 t1 E1) as (b & h2 & t2 & E2 & A2 & R2 & D2 & L2).
  exists b, h2, (t1 ++ t2).
  rewrite (bind_Ok _ _ _ _ _ _ E1), E2.
  unfold acquires, releases, destroys in *. rewrite !count_app.
  split; [reflexivity|]. split; [lia|]. split; [lia|]. split; [lia|].
  auto.
Qed.

Lemma settles_delete : settles delete.
Proof.
  intros h. do 3 eexists. split; [apply delete_eq|]. tally.
Qed.

Lemma settles_RequestDestruction write_result :
  settles (RequestDestruction write_result).
Proof.
  intros h. unfold settles_at, RequestDestruction, bind at 1, gets.
  destruct (ui_thread_looper_callback_registered_ (this h)); cbn [negb].
  - unfold bind at 1, gets. unfold bind at 1, emit.
    destruct (write_result =? sizeof); cbn [negb].
    + cbn. do 3 eexists. split; [reflexivity|]. tally.
    + unfold bind at 1. rewrite delete_eq.
      do 3 eexists. split; [reflexivity|]. tally.
  - destruct (settles_delete h) as (a & h' & t & E & H).
    rewrite E. exists a, h', t. rewrite app_nil_l. now split.
Qed.

Lemma settles_JniActivityOnDestroy write_result :
  settles (JniActivityOnDestroy write_result).
Proof.
  intros h. unfold JniActivityOnDestroy.
  apply settles_at_bind.
  { do 3 eexists. split; [reflexivity|]. tally. }
  intros a h1 t1 E. cbn in E. inversion E; subst; clear E.
  apply settles_at_bind; [|intros; apply settles_RequestDestruction].
  destruct h1 as [c lv]. cbn [this].
  destruct (app_ c) as [a|] eqn:Happ.
  - do 3 eexists. split; [reflexivity|].
    unfold app_owned. cbn [this]. rewrite Happ. tally.
  - do 3 eexists. split; [reflexivity|]. tally.
Qed.

Lemma settles_NotifyUILoopOfPendingFunctions write_result :
  settles (NotifyUILoopOfPendingFunctions write_result).
Proof.
  intros h. unfold settles_at, NotifyUILoopOfPendingFunctions, bind, gets, emit.
  destruct (write_result =? sizeof); cbn [negb];
    do 3 eexists; (split; [reflexivity|]); tally.
Qed.

Lemma settles_PlatformQuitFromUIThread : settles PlatformQuitFromUIThread.
Proof.
  intros h. unfold settles_at, PlatformQuitFromUIThread, bind, gets, emit, ret.
  destruct (negb (is_null (activity_ (this h)))
            && negb (is_null (activity_method_finish_ (this h))))%bool;
    do 3 eexists; (split; [reflexivity|]); tally.
Qed.

Lemma settles_UIThreadLooperCallback fd events read_result read_command :
  settles (UIThreadLooperCallback fd events read_result read_command).
Proof.
  intros h. unfold settles_at, UIThreadLooperCallback.
  destruct (negb (Z.land events _ =? 0)).
  { cbn. do 3 eexists. split; [reflexivity|]. tally. }
  destruct (negb (negb (Z.land events ALOOPER_EVENT_INPUT =? 0))).
  { cbn. do 3 eexists. split; [reflexivity|]. tally. }
  unfold bind at 1. cbn [emit].
  destruct (read_result =? sizeof).
  - destruct read_command.
    + unfold bind at 1. cbn [modify].
      rewrite (bind_Ok _ _ _ _ _ _ (delete_eq _)). cbn [ret].
      do 3 eexists. split; [reflexivity|].
      change (EvRead fd read_result :: ?l) with ([EvRead fd read_result] ++ l).
      tally.
    + cbn. do 3 eexists. split; [reflexivity|]. tally.
  - destruct (read_result =? -1);
      cbn; do 3 eexists; (split; [reflexivity|]); tally.
Qed.

Lemma settles_call c : settles (call c).
Proof.
  destruct c; cbn [call].
  - apply settles_NotifyUILoopOfPendingFunctions.
  - intros h. apply settles_at_bind.
    { do 3 eexists. split; [reflexivity|]. tally. }
    intros a h1 t1 E. cbn in E. inversion E; subst; clear E.
    apply settles_at_bind; [apply settles_UIThreadLooperCallback|].
    intros. do 3 eexists. split; [reflexivity|]. tally.
  - apply settles_PlatformQuitFromUIThread.
  - apply settles_RequestDestruction.
  - apply settles_JniActivityOnDestroy.
Qed.

Lemma settles_calls cs : settles (calls cs).
Proof.
  induction cs as [|c cs IH]; intros h; cbn [calls].
  - do 3 eexists. split; [reflexivity|]. tally.
  - unfold settles_at. cbn beta. destruct (live h).
    + apply (settles_at_bind (call c) (fun _ => calls cs) h);
        [apply settles_call|]. intros; apply IH.
    + do 3 eexists. split; [reflexivity|]. tally.
Qed.

Ltac run_Initialize :=
  repeat first
    [ rewrite Shutdown_eq; cbn
    | rewrite (bind_Ok _ _ _ _ _ _ (Shutdown_eq _)); cbn
    | match goal with
      | |- context [is_null ?x] => is_var x; destruct x; cbn
      | |- context [match ?x with Some _ => _ | None => _ end] =>
          is_var x; destruct x; cbn
      | |- context [negb (?x =? 1)] => is_var x; destruct (x =? 1); cbn
      end ].

(** [Initialize] on a newly constructed context. *)
Lemma Initialize_new jni_env activity asset_manager e :
  exists b h t,
    Initialize jni_env activity asset_manager e (mkHeap new_context true) = Ok b h t
    /\ live h = true
    /\ acquires t = (if reaches_ALooper_acquire e then 1 else 0)%nat
    /\ (releases t + looper_held (this h) = acquires t)%nat
    /\ destroys t = 0%nat
    /\ app_owned (this h) = 0%nat
    /\ (b = false -> this h = empty_context)
    /\ (b = true ->
        ui_thread_looper_callback_registered_ (this h) = true
        /\ releases t = 0%nat).
Proof.
  destruct e as [amj am cfg sdk act lcl cls fin lp pp addfd].
  unfold Initialize, reaches_ALooper_acquire. cbn.
  run_Initialize.
  all: do 3 eexists; (split; [reflexivity|]); tally.
Qed.

Local Arguments Initialize : simpl never.
Local Arguments InitializeApp : simpl never.
Local Arguments RequestDestruction : simpl never.

(** [InitializeApp] when the creator returns an app: closed form. *)
Lemma InitializeApp_created app_creator h a :
  app_creator (this h) = Some a ->
  InitializeApp app_creator h =
    if OnInitialize a
    then Ok true (mkHeap (set_app_ (Some a) (this h)) (live h))
           [EvCreateApp (Some a); EvOnInitialize a]
    else Ok false
           (mkHeap (set_app_ None (set_app_ (Some a) (this h))) (live h))
           [EvCreateApp (Some a); EvOnInitialize a; EvInvokeOnDestroy a].
Proof.
  intros E. unfold InitializeApp, bind, gets, emit, modify, crash, ret.
  cbn [this live app_ set_app_ app]. rewrite E.
  destruct (OnInitialize a); reflexivity.
Qed.

Lemma InitializeApp_null app_creator h :
  app_creator (this h) = None ->
  InitializeApp app_creator h = Crash NullDereference [EvCreateApp None].
Proof.
  intros E. unfold InitializeApp, bind, gets, emit, modify, crash, ret.
  cbn [this live app_ set_app_ app]. now rewrite E.
Qed.

(** The entry point: the looper reference and the app are accounted for
    when it returns, and also when it crashes. *)
Lemma entry_accounting jni_env activity asset_manager e :
  match JniActivityInitializeWindowedAppOnCreate
          jni_env activity asset_manager e no_object with
  | Ok p h t =>
      acquires t = (if acquires_looper e then 1 else 0)%nat
      /\ (releases t + looper_held (this h) = acquires t)%nat
      /\ dead_is_empty h
  | Crash f t =>
      acquires t = (if acquires_looper e then 1 else 0)%nat
      /\ releases t = 0%nat
  end.
Proof.
  unfold JniActivityInitializeWindowedAppOnCreate, acquires_looper.
  destruct (GetStringUTFChars e) as [s|]; [|cbn; tally].
  destruct (GetCreator e s) as [app_creator|]; [|cbn; tally].
  destruct (Initialize_new jni_env activity asset_manager (init_env e))
    as (b & h & t & E & Hlive & Hacq & Hrel & Hdes & Hown & Hfalse & Htrue).
  unfold bind at 1. cbn [emit]. unfold bind at 1. cbn [operator_new].
  rewrite (bind_Ok _ _ _ _ _ _ E).
  destruct b; cbn [negb].
  - unfold bind at 1.
    destruct (app_creator (this h)) as [a|] eqn:Ha.
    + rewrite (InitializeApp_created _ _ _ Ha).
      destruct (OnInitialize a); cbn [negb].
      * cbn [ret app]. tally_in_context.
      * match goal with
        | |- context [bind (RequestDestruction ?w) ?k ?h'] =>
            destruct (settles_RequestDestruction w h')
              as (u & h2 & t2 & E2 & A2 & R2 & D2 & L2);
            rewrite (bind_Ok _ _ _ _ _ _ E2)
        end.
        cbn [ret app].
        assert (dead_is_empty h2) as L3.
        { apply L2. intros Hd. cbn in Hd. congruence. }
        split; [|split; [|exact L3]]; tally_in_context.
    + rewrite (InitializeApp_null _ _ Ha).
      destruct (Htrue eq_refl) as [_ Hrel0]. tally_in_context.
  - rewrite (bind_Ok _ _ _ _ _ _ (delete_eq _)). cbn [ret app].
    rewrite (Hfalse eq_refl) in *. rewrite shutdown_events_empty_context.
    tally_in_context.
Qed.

Lemma app_owned_0 c : app_owned c = 0%nat -> app_ c = None.
Proof. unfold app_owned. destruct (app_ c); [discriminate|reflexivity]. Qed.

(** ** A failing [OnInitialize] *)

(** C6.  Suppose the entry point finds the creator, [Initialize] succeeds,
    and the app the creator returns answers false to [OnInitialize].  Then
    [InitializeApp] calls [InvokeOnDestroy] on that app, clears [app_] and
    returns false; the entry point returns [nullptr] with [app_] empty; and
    in the whole life of the context, whatever calls follow and however it
    is finally shut down, [InvokeOnDestroy] is called exactly once. *)
Theorem OnInitialize_failure_destroys_once
    jni_env activity asset_manager e cs
    windowed_app_identifier_c_str app_creator h1 t1 a :
  GetStringUTFChars e = Some windowed_app_identifier_c_str ->
  GetCreator e windowed_app_identifier_c_str = Some app_creator ->
  Initialize jni_env activity asset_manager (init_env e) (mkHeap new_context true)
    = Ok true h1 t1 ->
  app_creator (this h1) = Some a ->
  OnInitialize a = false ->
  (exists h1',
     InitializeApp app_creator h1 =
       Ok false h1' [EvCreateApp (Some a); EvOnInitialize a; EvInvokeOnDestroy a]
     /\ app_ (this h1') = None)
  /\ (exists h2 t2,
        JniActivityInitializeWindowedAppOnCreate
          jni_env activity asset_manager e no_object = Ok nullptr h2 t2
        /\ app_ (this h2) = None
        /\ destroys t2 = 1%nat)
  /\ destroys (trace_of (lifetime jni_env activity asset_manager e cs)) = 1%nat.
Proof.
  intros Hs Hc Hinit Ha Hno.
  pose proof (InitializeApp_created _ _ _ Ha) as Happ. rewrite Hno in Happ.
  destruct (Initialize_new jni_env activity asset_manager (init_env e))
    as (b & h & t & E & _ & _ & _ & Hdes & _).
  rewrite Hinit in E. inversion E; subst b h t; clear E.
  match type of Happ with
  | _ = Ok false ?h' _ =>
      destruct (settles_RequestDestruction (destruction_write_result e) h')
        as (u & h2 & t2 & E2 & _ & _ & D2 & _)
  end.
  assert (JniActivityInitializeWindowedAppOnCreate
            jni_env activity asset_manager e no_object =
          Ok nullptr h2
            ([EvReleaseStringUTFChars] ++
             t1 ++ [EvCreateApp (Some a); EvOnInitialize a; EvInvokeOnDestroy a]
                ++ t2 ++ [])) as Hentry.
  { unfold JniActivityInitializeWindowedAppOnCreate. rewrite Hs, Hc.
    unfold bind at 1. cbn [emit]. unfold bind at 1. cbn [operator_new].
    rewrite (bind_Ok _ _ _ _ _ _ Hinit). cbn [negb].
    rewrite (bind_Ok _ _ _ _ _ _ Happ). cbn [negb].
    rewrite (bind_Ok _ _ _ _ _ _ E2). reflexivity. }
  assert (app_owned (this h2) = 0%nat /\ destroys t2 = 0%nat) as [Hown2 Hdes2].
  { unfold destroys in *. cbn in D2. lia. }
  split; [|split].
  - eexists. split; [exact Happ|reflexivity].
  - do 2 eexists. split; [exact Hentry|].
    split; [now apply app_owned_0|].
    tally_in_context.
  - unfold lifetime. destruct (settles_calls cs h2)
      as (u' & h3 & t3 & E3 & _ & _ & D3 & _).
    rewrite (bind_Ok _ _ _ _ _ _ Hentry), E3. cbn [trace_of].
    tally_in_context.
Qed.

(** ** The looper reference *)

(** C7.  Over the whole life of a context (the entry point, then any
    calls made on the object while it exists) [ALooper_acquire] is called
    once if the entry point gets as far as that call and never otherwise,
    and [ALooper_release] is never called more often than
    [ALooper_acquire].  When the run returns, the releases made plus the
    reference still held equal the acquisitions; so once the object has
    been deleted, every acquired reference has been released, exactly
    once.  [Shutdown] itself releases the looper once if the context holds
    it, not at all otherwise, and leaves the context without it. *)
Theorem looper_acquired_and_released_at_most_once
    jni_env activity asset_manager e cs :
  acquires (trace_of (lifetime jni_env activity asset_manager e cs)) =
    (if acquires_looper e then 1 else 0)%nat
  /\ (acquires (trace_of (lifetime jni_env activity asset_manager e cs)) <= 1)%nat
  /\ (releases (trace_of (lifetime jni_env activity asset_manager e cs)) <= 1)%nat
  /\ (releases (trace_of (lifetime jni_env activity asset_manager e cs)) <=
      acquires (trace_of (lifetime jni_env activity asset_manager e cs)))%nat
  /\ (forall h t,
        lifetime jni_env activity asset_manager e cs = Ok tt h t ->
        (releases t + looper_held (this h) = acquires t)%nat
        /\ (live h = false -> releases t = acquires t))
  /\ (forall h, exists h' t,
        Shutdown h = Ok tt h' t
        /\ releases t = looper_held (this h)
        /\ looper_held (this h') = 0%nat).
Proof.
  assert (match lifetime jni_env activity asset_manager e cs with
          | Ok _ h t =>
              acquires t = (if acquires_looper e then 1 else 0)%nat
              /\ (releases t + looper_held (this h) = acquires t)%nat
              /\ dead_is_empty h
          | Crash _ t =>
              acquires t = (if acquires_looper e then 1 else 0)%nat
              /\ releases t = 0%nat
          end) as H.
  { unfold lifetime.
    pose proof (entry_accounting jni_env activity asset_manager e) as He.
    unfold bind.
    destruct (JniActivityInitializeWindowedAppOnCreate
                jni_env activity asset_manager e no_object) as [p h t|f t].
    - destruct He as (Ha & Hr & Hd).
      destruct (settles_calls cs h) as (u & h' & t' & E' & A' & R' & _ & L').
      rewrite E'. specialize (L' Hd).
      split; [|split; [|exact L']]; tally_in_context.
    - exact He. }
  assert (acquires (trace_of (lifetime jni_env activity asset_manager e cs)) =
            (if acquires_looper e then 1 else 0)%nat
          /\ (releases (trace_of (lifetime jni_env activity asset_manager e cs)) <=
              acquires (trace_of (lifetime jni_env activity asset_manager e cs)))%nat)
    as [Hacq Hle].
  { destruct (lifetime jni_env activity asset_manager e cs); cbn [trace_of].
    - destruct H as (Ha & Hr & _). split; [exact Ha|lia].
    - destruct H as (Ha & Hr). split; [exact Ha|lia]. }
  split; [exact Hacq|].
  split; [rewrite Hacq; destruct (acquires_looper e); lia|].
  split; [rewrite Hacq in Hle; destruct (acquires_looper e); lia|].
  split; [exact Hle|].
  split.
  - intros h t E. rewrite E in H. destruct H as (_ & Hr & Hd).
    split; [exact Hr|]. intros Hl. destruct (Hd Hl) as [Hh _]. lia.
  - intros h. do 2 eexists. split; [apply Shutdown_eq|].
    split; [apply shutdown_events_releases|reflexivity].
Qed.

(** ** Each function in closed form *)

Lemma RequestDestruction_eq write_result h :
  RequestDestruction write_result h =
    if ui_thread_looper_callback_registered_ (this h) then
      if write_result =? sizeof then
        Ok tt h
          [EvWrite (snd (ui_thread_looper_callback_pipe_ (this h))) kDestroy write_result;
           EvLooperWake (ui_thread_looper_ (this h))]
      else
        Ok tt (mkHeap empty_context false)
          ([EvWrite (snd (ui_thread_looper_callback_pipe_ (this h))) kDestroy write_result;
            EvXELOGE
              "AndroidWindowedAppContext: Failed to write a destruction command to the UI thread looper callback pipe"]
           ++ shutdown_events (this h) ++ [EvOperatorDelete])
    else
      Ok tt (mkHeap empty_context false)
        (shutdown_events (this h) ++ [EvOperatorDelete]).
Proof.
  unfold RequestDestruction, bind at 1, gets.
  destruct (ui_thread_looper_callback_registered_ (this h)); cbn [negb].
  - unfold bind at 1, gets. unfold bind at 1, emit.
    destruct (write_result =? sizeof); cbn [negb].
    + reflexivity.
    + unfold bind at 1. rewrite delete_eq. reflexivity.
  - rewrite delete_eq. reflexivity.
Qed.

Lemma JniActivityOnDestroy_eq write_result h :
  JniActivityOnDestroy write_result h =
    match app_ (this h) with
    | Some a =>
        after_events [EvInvokeOnDestroy a]
          (RequestDestruction write_result (without_app h))
    | None => RequestDestruction write_result h
    end.
Proof.
  unfold JniActivityOnDestroy, bind at 1, gets. unfold bind at 1.
  destruct (app_ (this h)) as [a|].
  - cbn [bind emit modify app]. unfold without_app, after_events.
    destruct (RequestDestruction write_result _); reflexivity.
  - cbn [ret]. destruct (RequestDestruction write_result h); reflexivity.
Qed.

Lemma NotifyUILoopOfPendingFunctions_eq write_result h :
  NotifyUILoopOfPendingFunctions write_result h =
    Ok tt h
      (EvWrite (snd (ui_thread_looper_callback_pipe_ (this h)))
         kExecutePendingFunctions write_result
       :: (if write_result =? sizeof
           then [EvLooperWake (ui_thread_looper_ (this h))]
           else [EvXELOGE
                   "AndroidWindowedAppContext: Failed to write a pending function execution command to the UI thread looper callback pipe"])).
Proof.
  unfold NotifyUILoopOfPendingFunctions, bind, gets, emit.
  destruct (write_result =? sizeof); reflexivity.
Qed.

Lemma PlatformQuitFromUIThread_eq h :
  PlatformQuitFromUIThread h =
    Ok tt h
      (if negb (is_null (activity_ (this h)))
          && negb (is_null (activity_method_finish_ (this h)))
       then [EvCallVoidMethod (ui_thread_jni_env_ (this h)) (activity_ (this h))
               (activity_method_finish_ (this h))]
       else []).
Proof.
  unfold PlatformQuitFromUIThread, bind, gets, emit, ret.
  destruct (negb (is_null (activity_ (this h)))
            && negb (is_null (activity_method_finish_ (this h))))%bool;
    reflexivity.
Qed.

Lemma UIThreadLooperCallback_eq fd events read_result read_command h :
  UIThreadLooperCallback fd events read_result read_command h =
    if negb (Z.land events
               (Z.lor ALOOPER_EVENT_ERROR
                  (Z.lor ALOOPER_EVENT_HANGUP ALOOPER_EVENT_INVALID)) =? 0) then
      Ok 0 (unregistered h)
        [EvXELOGE
           "AndroidWindowedAppContext: The UI thread looper callback pipe file descriptor has encountered an error condition during polling";
         EvQuitFromUIThread]
    else if Z.land events ALOOPER_EVENT_INPUT =? 0 then
      Ok 1 h []
    else if read_result =? sizeof then
      match read_command with
      | kDestroy =>
          Ok 0 (mkHeap empty_context false)
            ([EvRead fd read_result]
             ++ shutdown_events (this (unregistered h)) ++ [EvOperatorDelete])
      | kExecutePendingFunctions =>
          Ok 1 h [EvRead fd read_result; EvExecutePendingFunctionsFromUIThread]
      end
    else if read_result =? -1 then
      Ok 0 (unregistered h)
        [EvRead fd read_result;
         EvXELOGE
           "AndroidWindowedAppContext: The UI thread looper callback pipe file descriptor has encountered an error condition during reading";
         EvQuitFromUIThread]
    else
      Ok 1 h [EvRead fd read_result].
Proof.
  unfold UIThreadLooperCallback, unregistered.
  destruct (negb (Z.land events _ =? 0)); [reflexivity|].
  destruct (Z.land events ALOOPER_EVENT_INPUT =? 0); cbn [negb]; [reflexivity|].
  unfold bind at 1. cbn [emit].
  destruct (read_result =? sizeof).
  - destruct read_command; [|reflexivity].
    unfold bind at 1. cbn [modify].
    rewrite (bind_Ok _ _ _ _ _ _ (delete_eq _)). cbn [ret this].
    now rewrite !app_nil_r.
  - destruct (read_result =? -1); reflexivity.
Qed.

(** A property of runs that holds of no call at all, is kept when runs
    follow one another, and holds of each call made on a live object, holds
    of every sequence of calls. *)
Lemma calls_steps (R : Heap -> list Event -> Heap -> Prop) :
  (forall h, R h [] h) ->
  (forall h1 t1 h2 t2 h3, R h1 t1 h2 -> R h2 t2 h3 -> R h1 (t1 ++ t2) h3) ->
  (forall c h, live h = true -> exists h' t, call c h = Ok tt h' t /\ R h t h') ->
  forall cs h, exists h' t, calls cs h = Ok tt h' t /\ R h t h'.
Proof.
  intros Hnil Happ Hcall cs.
  induction cs as [|c cs IH]; intros h; cbn [calls].
  - exists h, []. split; [reflexivity|apply Hnil].
  - destruct (live h) eqn:Hlive.
    + destruct (Hcall c h Hlive) as (h1 & t1 & E1 & R1).
      destruct (IH h1) as (h2 & t2 & E2 & R2).
      exists h2, (t1 ++ t2).
      rewrite (bind_Ok _ _ _ _ _ _ E1), E2.
      split; [reflexivity|]. eapply Happ; eassumption.
    + exists h, []. split; [reflexivity|apply Hnil].
Qed.

Lemma shutdown_events_removes c :
  count is_LooperRemoveFd (shutdown_events c) =
    if ui_thread_looper_callback_registered_ c then 1%nat else 0%nat.
Proof. revert c. count_shutdown_events. Qed.

Lemma shutdown_events_wakes c : count is_LooperWake (shutdown_events c) = 0%nat.
Proof. revert c. count_shutdown_events. Qed.

Lemma shutdown_events_reads c : count is_Read (shutdown_events c) = 0%nat.
Proof. revert c. count_shutdown_events. Qed.

Lemma shutdown_events_quits c : count is_QuitFromUIThread (shutdown_events c) = 0%nat.
Proof. revert c. count_shutdown_events. Qed.

Lemma shutdown_events_string_releases c :
  count is_ReleaseStringUTFChars (shutdown_events c) = 0%nat.
Proof. revert c. count_shutdown_events. Qed.

Hint Rewrite shutdown_events_removes shutdown_events_wakes shutdown_events_reads
  shutdown_events_quits shutdown_events_string_releases shutdown_events_writes
  shutdown_events_deletes shutdown_events_runs : tally.

(** Counting in explicit traces. *)
Ltac census :=
  unfold acquires, releases, destroys in *;
  autorewrite with tally in *;
  unfold looper_held, app_owned, alive in *;
  cbn [is_LooperAcquire is_LooperRelease is_InvokeOnDestroy is_Write is_Read
       is_OperatorDelete is_QuitFromUIThread is_ExecutePendingFunctions
       is_LooperRemoveFd is_LooperWake is_ReleaseStringUTFChars
       this live unregistered without_app no_object
       ui_thread_looper_callback_registered_ ui_thread_looper_ app_
       set_ui_thread_looper_callback_registered_ set_app_ is_null negb] in *.

(** ** Requesting destruction, once more *)

(** X1.  A destruction request is never dropped.  Whatever the flag and
    whatever [write] returns, [RequestDestruction] returns having done
    exactly one of two things: it has deleted the object, without waking the
    looper; or, with the callback registered and the command written in
    full, it has left the object as it is, written [kDestroy] once and woken
    the looper once. *)
Theorem RequestDestruction_deletes_or_queues write_result h :
  exists h' t,
    RequestDestruction write_result h = Ok tt h' t
    /\ ((live h' = false
         /\ this h' = empty_context
         /\ count is_OperatorDelete t = 1%nat
         /\ count is_LooperWake t = 0%nat)
        \/ (h' = h
            /\ ui_thread_looper_callback_registered_ (this h) = true
            /\ write_result = sizeof
            /\ t = [EvWrite (snd (ui_thread_looper_callback_pipe_ (this h)))
                      kDestroy sizeof;
                    EvLooperWake (ui_thread_looper_ (this h))]
            /\ count is_OperatorDelete t = 0%nat)).
Proof.
  rewrite RequestDestruction_eq.
  destruct (ui_thread_looper_callback_registered_ (this h)).
  - destruct (Z.eqb_spec write_result sizeof) as [->|_].
    + do 2 eexists. split; [reflexivity|]. right. repeat split.
    + do 2 eexists. split; [reflexivity|]. left.
      repeat split; census; reflexivity.
  - do 2 eexists. split; [reflexivity|]. left.
    repeat split; census; reflexivity.
Qed.

(** ** The owner's teardown *)

(** X2.  [JniActivityOnDestroy] always returns and leaves [app_] empty.  If
    the context owns an app, [InvokeOnDestroy] is the first thing called,
    before the pipe is written or anything is released, and it is called
    once; with no app it is not called.  Whatever calls follow on the
    object, up to and including its deletion, none calls it again. *)
Theorem JniActivityOnDestroy_destroys_app_once write_result h :
  (exists h' t,
     JniActivityOnDestroy write_result h = Ok tt h' t
     /\ app_ (this h') = None
     /\ destroys t = app_owned (this h)
     /\ (forall a, app_ (this h) = Some a ->
         exists rest, t = EvInvokeOnDestroy a :: rest /\ destroys rest = 0%nat))
  /\ (forall cs,
        destroys (trace_of ((JniActivityOnDestroy write_result ;; calls cs) h)) =
          app_owned (this h)).
Proof.
  destruct (settles_JniActivityOnDestroy write_result h)
    as (u & h' & t & E & _ & _ & D & _).
  destruct u.
  assert (app_ (this h') = None) as Hnone.
  { revert E. rewrite JniActivityOnDestroy_eq.
    destruct (app_ (this h)) as [a|] eqn:Ha;
      [rewrite (RequestDestruction_eq write_result (without_app h))
      |rewrite (RequestDestruction_eq write_result h)].
    all: destruct (ui_thread_looper_callback_registered_ _);
      [destruct (write_result =? sizeof)|].
    all: cbn [after_events]; intros E; inversion E; subst h'; clear E.
    all: try reflexivity; exact Ha. }
  assert (destroys t = app_owned (this h)) as Hd.
  { unfold app_owned in D at 1. rewrite Hnone in D. cbn [is_null] in D. lia. }
  split.
  - exists h', t. split; [exact E|]. split; [exact Hnone|]. split; [exact Hd|].
    intros a Ha. revert E. rewrite JniActivityOnDestroy_eq, Ha.
    destruct (settles_RequestDestruction write_result (without_app h))
      as (u & h2 & t2 & E2 & _ & _ & D2 & _).
    rewrite E2. cbn [after_events app]. intros E; inversion E; subst.
    exists t2. split; [reflexivity|]. cbn in D2. unfold destroys in *. lia.
  - intros cs. destruct (settles_calls cs h') as (u & h3 & t3 & E3 & _ & _ & D3 & _).
    rewrite (bind_Ok _ _ _ _ _ _ E), E3. cbn [trace_of].
    unfold destroys in *. rewrite count_app.
    unfold app_owned in D3 at 2. rewrite Hnone in D3. cbn [is_null] in D3.
    lia.
Qed.

(** ** The callback and the looper *)

(** X3.  The callback unregisters itself by returning 0 and never calls
    [ALooper_removeFd], not even when it deletes an object whose flag was
    true: it clears the flag before the destructor runs [Shutdown].  In one
    invocation it reads at most once, runs the pending functions at most
    once, deletes at most once, and neither writes to the pipe nor wakes the
    looper. *)
Theorem UIThreadLooperCallback_never_removes_fd
    fd events read_result read_command h :
  count is_LooperRemoveFd
    (trace_of (UIThreadLooperCallback fd events read_result read_command h)) = 0%nat
  /\ (count is_Read
        (trace_of (UIThreadLooperCallback fd events read_result read_command h)) <= 1)%nat
  /\ (count is_ExecutePendingFunctions
        (trace_of (UIThreadLooperCallback fd events read_result read_command h)) <= 1)%nat
  /\ (count is_OperatorDelete
        (trace_of (UIThreadLooperCallback fd events read_result read_command h)) <= 1)%nat
  /\ count is_Write
       (trace_of (UIThreadLooperCallback fd events read_result read_command h)) = 0%nat
  /\ count is_LooperWake
       (trace_of (UIThreadLooperCallback fd events read_result read_command h)) = 0%nat.
Proof.
  rewrite UIThreadLooperCallback_eq.
  destruct (negb (Z.land events _ =? 0));
    [|destruct (Z.land events ALOOPER_EVENT_INPUT =? 0);
      [|destruct (read_result =? sizeof);
        [destruct read_command|destruct (read_result =? -1)]]].
  all: cbn [trace_of]; census; repeat split.
  all: lia.
Qed.

(** X4.  After the callback has met a fatal condition (an error, hang-up or
    invalid event, or a [read] returning -1) the owner's teardown deletes
    the object in the same call: the broken pipe is not written, whatever
    [write] would return, [ALooper_removeFd] is not called, the app, if
    owned, gets its [InvokeOnDestroy] once, and the quit path has been
    called once. *)
Theorem fatal_condition_then_teardown_deletes
    fd events read_result read_command write_result h :
  Z.land events
    (Z.lor ALOOPER_EVENT_ERROR (Z.lor ALOOPER_EVENT_HANGUP ALOOPER_EVENT_INVALID)) <> 0
  \/ (Z.land events ALOOPER_EVENT_INPUT <> 0 /\ read_result = -1) ->
  exists t,
    (UIThreadLooperCallback fd events read_result read_command ;;
     JniActivityOnDestroy write_result) h =
      Ok tt (mkHeap empty_context false) t
    /\ count is_QuitFromUIThread t = 1%nat
    /\ count is_Write t = 0%nat
    /\ count is_LooperRemoveFd t = 0%nat
    /\ count is_OperatorDelete t = 1%nat
    /\ destroys t = app_owned (this h).
Proof.
  intros Hfatal.
  assert (exists t0,
            UIThreadLooperCallback fd events read_result read_command h =
              Ok 0 (unregistered h) t0
            /\ count is_QuitFromUIThread t0 = 1%nat
            /\ count is_Write t0 = 0%nat
            /\ count is_LooperRemoveFd t0 = 0%nat
            /\ count is_OperatorDelete t0 = 0%nat
            /\ destroys t0 = 0%nat) as (t0 & E0 & Q0 & W0 & R0 & D0 & A0).
  { rewrite UIThreadLooperCallback_eq.
    destruct (Z.eqb_spec (Z.land events
      (Z.lor ALOOPER_EVENT_ERROR (Z.lor ALOOPER_EVENT_HANGUP ALOOPER_EVENT_INVALID))) 0)
      as [E|E]; cbn [negb].
    - destruct Hfatal as [Hf|[Hin Hrd]]; [now elim Hf|]. subst read_result.
      destruct (Z.eqb_spec (Z.land events ALOOPER_EVENT_INPUT) 0) as [I|_];
        [now elim Hin|].
      change (-1 =? sizeof) with false. cbn [Z.eqb Pos.eqb].
      eexists. split; [reflexivity|]. census. repeat split.
    - eexists. split; [reflexivity|]. census. repeat split. }
  rewrite (bind_Ok _ _ _ _ _ _ E0), JniActivityOnDestroy_eq.
  unfold app_owned.
  change (app_ (this (unregistered h))) with (app_ (this h)).
  destruct (app_ (this h)) as [a|] eqn:Ha.
  - rewrite RequestDestruction_eq. cbn [after_events].
    eexists. split; [reflexivity|]. census. repeat split; lia.
  - rewrite RequestDestruction_eq.
    eexists. split; [reflexivity|]. census. rewrite Ha. cbn [is_null].
    repeat split; lia.
Qed.

(** ** Initialize: success and roll-back *)

Ltac finish_Initialize :=
  unfold acquires, releases, count, shutdown_events, global_refs_created,
    global_refs_deleted, configurations_created, configurations_deleted,
    opened_fds, is_open_fd, all_steps_succeed, reaches_ALooper_acquire,
    initialized_by;
  cbn;
  repeat match goal with
         | |- context [?x =? -1] => is_var x; destruct (x =? -1); cbn
         end;
  repeat match goal with |- _ /\ _ => split end;
  try reflexivity; try (intros; discriminate).

(** X5.  When [Initialize] fails on a new context, at whichever step, it
    has undone everything it did: every member is empty again, the global
    references are deleted in the reverse of the order they were created
    in, the configuration is deleted if one was created, the Android base
    is shut down if it was initialized, the looper is released if it was
    acquired, both ends of the pipe are closed if the pipe was created, and
    [ALooper_removeFd] is not called, the descriptor never having been
    added.  [Initialize] always returns. *)
Theorem Initialize_failure_releases_everything
    jni_env activity asset_manager e :
  exists b h t,
    Initialize jni_env activity asset_manager e (mkHeap new_context true) = Ok b h t
    /\ (b = false ->
        this h = empty_context
        /\ live h = true
        /\ global_refs_deleted t = rev (global_refs_created t)
        /\ configurations_deleted t = configurations_created t
        /\ count is_ShutdownAndroidApp t = count is_InitializeAndroidApp t
        /\ releases t = acquires t
        /\ closed_fds t = filter is_open_fd (opened_fds t)
        /\ count is_LooperRemoveFd t = 0%nat).
Proof.
  destruct e as [amj am cfg sdk act lcl cls fin lp [[r w]|] addfd].
  all: unfold Initialize; cbn; run_Initialize.
  all: do 3 eexists; (split; [reflexivity|]).
  all: intros Hb.
  all: finish_Initialize.
Qed.

(** X6.  [Initialize] on a new context returns true exactly when every
    platform call it makes succeeds.  It has then released nothing, has
    created the three global references, acquired the looper and opened the
    pipe, and the members hold what the platform returned, with the callback
    registered. *)
Theorem Initialize_succeeds_iff_all_steps
    jni_env activity asset_manager e :
  exists h t,
    Initialize jni_env activity asset_manager e (mkHeap new_context true) =
      Ok (all_steps_succeed e) h t
    /\ (all_steps_succeed e = true ->
        this h = initialized_by jni_env e
        /\ live h = true
        /\ global_refs_created t =
             [NewGlobalRef_asset_manager e; NewGlobalRef_activity e;
              NewGlobalRef_activity_class e]
        /\ configurations_created t = [AConfiguration_new e]
        /\ acquires t = 1%nat
        /\ Some (opened_fds t) =
             option_map (fun fds => [fst fds; snd fds]) (pipe_result e)
        /\ global_refs_deleted t = []
        /\ configurations_deleted t = []
        /\ closed_fds t = []
        /\ releases t = 0%nat
        /\ count is_ShutdownAndroidApp t = 0%nat).
Proof.
  destruct e as [amj am cfg sdk act lcl cls fin lp [[r w]|] addfd].
  all: unfold Initialize; cbn; run_Initialize.
  all: do 2 eexists;
    (split; [unfold all_steps_succeed, reaches_ALooper_acquire; cbn; reflexivity|]).
  all: intros Hb.
  all: finish_Initialize.
Qed.

(** ** The entry point, case by case *)

(** What [Initialize] leaves on a new context. *)
Lemma Initialize_new_outcome jni_env activity asset_manager e b h t :
  Initialize jni_env activity asset_manager e (mkHeap new_context true) = Ok b h t ->
  b = all_steps_succeed e
  /\ live h = true
  /\ this h = (if b then initialized_by jni_env e else empty_context)
  /\ count is_ReleaseStringUTFChars t = 0%nat
  /\ count is_OperatorDelete t = 0%nat.
Proof.
  destruct e as [amj am cfg sdk act lcl cls fin lp [[r w]|] addfd].
  all: unfold Initialize; cbn; run_Initialize.
  all: intros E; inversion E; subst b h t; clear E.
  all: unfold all_steps_succeed, reaches_ALooper_acquire, initialized_by; cbn.
  all: repeat split; census; reflexivity.
Qed.

Lemma entry_cases jni_env activity asset_manager e :
  (GetStringUTFChars e = None
   /\ exists msg,
        JniActivityInitializeWindowedAppOnCreate
          jni_env activity asset_manager e no_object =
          Ok nullptr no_object [EvAndroidLog "AndroidWindowedAppContext" msg])
  \/ (exists s,
        GetStringUTFChars e = Some s /\ GetCreator e s = None
        /\ exists msg,
             JniActivityInitializeWindowedAppOnCreate
               jni_env activity asset_manager e no_object =
               Ok nullptr no_object
                 [EvAndroidLog "AndroidWindowedAppContext" msg;
                  EvReleaseStringUTFChars])
  \/ (exists s app_creator b h t,
        GetStringUTFChars e = Some s /\ GetCreator e s = Some app_creator
        /\ Initialize jni_env activity asset_manager (init_env e)
             (mkHeap new_context true) = Ok b h t
        /\ ((b = false
             /\ JniActivityInitializeWindowedAppOnCreate
                  jni_env activity asset_manager e no_object =
                  Ok nullptr (mkHeap empty_context false)
                    ([EvReleaseStringUTFChars] ++ t ++ [EvOperatorDelete]))
            \/ (b = true /\ app_creator (this h) = None
                /\ JniActivityInitializeWindowedAppOnCreate
                     jni_env activity asset_manager e no_object =
                     Crash NullDereference
                       ([EvReleaseStringUTFChars] ++ t ++ [EvCreateApp None]))
            \/ (b = true
                /\ exists a,
                     app_creator (this h) = Some a /\ OnInitialize a = true
                     /\ JniActivityInitializeWindowedAppOnCreate
                          jni_env activity asset_manager e no_object =
                          Ok app_context
                            (mkHeap (set_app_ (Some a) (this h)) (live h))
                            ([EvReleaseStringUTFChars] ++ t
                             ++ [EvCreateApp (Some a); EvOnInitialize a]))
            \/ (b = true
                /\ exists a h2 t2,
                     app_creator (this h) = Some a /\ OnInitialize a = false
                     /\ RequestDestruction (destruction_write_result e)
                          (without_app h) = Ok tt h2 t2
                     /\ JniActivityInitializeWindowedAppOnCreate
                          jni_env activity asset_manager e no_object =
                          Ok nullptr h2
                            ([EvReleaseStringUTFChars] ++ t
                             ++ [EvCreateApp (Some a); EvOnInitialize a;
                                 EvInvokeOnDestroy a] ++ t2)))).
Proof.
  unfold JniActivityInitializeWindowedAppOnCreate.
  destruct (GetStringUTFChars e) as [s|]; [|left; split; [reflexivity|]; eexists; reflexivity].
  right.
  destruct (GetCreator e s) as [app_creator|] eqn:Hc;
    [|left; exists s; split; [reflexivity|]; split; [exact Hc|]; eexists; reflexivity].
  right. exists s, app_creator.
  destruct (Initialize_new jni_env activity asset_manager (init_env e))
    as (b & h & t & E & _).
  exists b, h, t. split; [reflexivity|]. split; [exact Hc|]. split; [exact E|].
  destruct (Initialize_new_outcome _ _ _ _ _ _ _ E) as (_ & _ & Hthis & _).
  assert (forall k : bool -> M ContextPtr,
            (emit EvReleaseStringUTFChars ;; operator_new ;;
             initialized <- Initialize jni_env activity asset_manager (init_env e) ;;
             k initialized) no_object =
            after_events ([EvReleaseStringUTFChars] ++ t) (k b h)) as Hrun.
  { intros k. unfold bind at 1. cbn [emit]. unfold bind at 1. cbn [operator_new].
    rewrite (bind_Ok _ _ _ _ _ _ E).
    destruct (k b h); reflexivity. }
  rewrite Hrun. clear Hrun.
  destruct b; cbn [negb].
  - right.
    destruct (app_creator (this h)) as [a|] eqn:Ha.
    + right.
      destruct (OnInitialize a) eqn:Hon.
      * left. split; [reflexivity|]. exists a.
        split; [reflexivity|]. split; [exact Hon|].
        unfold bind at 1. rewrite (InitializeApp_created _ _ _ Ha), Hon.
        cbn [negb ret after_events]. now rewrite !app_nil_r, <- !app_assoc.
      * right. split; [reflexivity|].
        destruct (settles_RequestDestruction (destruction_write_result e)
                    (without_app h)) as (u & h2 & t2 & E2 & _).
        destruct u. exists a, h2, t2.
        split; [reflexivity|]. split; [exact Hon|]. split; [exact E2|].
        unfold bind at 1. rewrite (InitializeApp_created _ _ _ Ha), Hon.
        cbn [negb].
        change (mkHeap (set_app_ None (set_app_ (Some a) (this h))) (live h))
          with (without_app h).
        rewrite (bind_Ok _ _ _ _ _ _ E2). cbn [ret after_events].
        now rewrite !app_nil_r, <- !app_assoc.
    + left. split; [reflexivity|]. split; [reflexivity|].
      unfold bind at 1. rewrite (InitializeApp_null _ _ Ha).
      cbn [after_events]. now rewrite <- !app_assoc.
  - left. split; [reflexivity|].
    rewrite (bind_Ok _ _ _ _ _ _ (delete_eq _)). cbn [ret after_events].
    rewrite Hthis, shutdown_events_empty_context.
    now rewrite !app_nil_r, <- !app_assoc.
Qed.

(** X7.  The entry point releases the identifier string it obtained
    exactly once on every path, whether the creator is missing, [Initialize]
    fails, the app fails to initialize, the app pointer is null, or
    everything succeeds, and never releases one it did not obtain. *)
Theorem entry_point_releases_identifier_string
    jni_env activity asset_manager e :
  count is_ReleaseStringUTFChars
    (trace_of (JniActivityInitializeWindowedAppOnCreate
                 jni_env activity asset_manager e no_object)) =
    if is_null (GetStringUTFChars e) then 0%nat else 1%nat.
Proof.
  destruct (entry_cases jni_env activity asset_manager e)
    as [(Hs & msg & E)
       |[(s & Hs & Hc & msg & E)
        |(s & app_creator & b & h & t & Hs & Hc & Hi & Hcase)]].
  - rewrite E, Hs. reflexivity.
  - rewrite E, Hs. reflexivity.
  - rewrite Hs. cbn [is_null].
    destruct (Initialize_new_outcome _ _ _ _ _ _ _ Hi) as (_ & _ & _ & Hrel & _).
    destruct Hcase as [(_ & E)|[(_ & _ & E)|[(_ & a & _ & _ & E)
                      |(_ & a & h2 & t2 & _ & _ & E2 & E)]]];
      rewrite E; cbn [trace_of].
    1-3: census; lia.
    revert E2. rewrite RequestDestruction_eq.
    destruct (ui_thread_looper_callback_registered_ _);
      [destruct (destruction_write_result e =? sizeof)|].
    all: intros E2; inversion E2; subst h2 t2; census; lia.
Qed.

(** X8.  The entry point never hands out a context that is not fully
    initialized.  When it returns the context, every step of [Initialize]
    has succeeded and the context is alive, registered, and owns an app
    whose [OnInitialize] returned true.  When it returns [nullptr], the
    context owns no app, and either there is no object any more (none was
    made, or it has been deleted) or the context is registered and the last
    things done were to write [kDestroy] to its pipe and wake the looper. *)
Theorem entry_point_never_returns_partial
    jni_env activity asset_manager e p h t :
  JniActivityInitializeWindowedAppOnCreate
    jni_env activity asset_manager e no_object = Ok p h t ->
  match p with
  | app_context =>
      all_steps_succeed (init_env e) = true
      /\ live h = true
      /\ ui_thread_looper_callback_registered_ (this h) = true
      /\ this (without_app h) = initialized_by jni_env (init_env e)
      /\ exists a, app_ (this h) = Some a /\ OnInitialize a = true
  | nullptr =>
      app_ (this h) = None
      /\ (live h = false
          \/ (ui_thread_looper_callback_registered_ (this h) = true
              /\ this h = initialized_by jni_env (init_env e)
              /\ exists t0,
                   t = t0 ++
                       [EvWrite (snd (ui_thread_looper_callback_pipe_ (this h)))
                          kDestroy sizeof;
                        EvLooperWake (ui_thread_looper_ (this h))]))
  end.
Proof.
  intros E0.
  destruct (entry_cases jni_env activity asset_manager e)
    as [(Hs & msg & E)
       |[(s & Hs & Hc & msg & E)
        |(s & app_creator & b & h1 & t1 & Hs & Hc & Hi & Hcase)]].
  - rewrite E in E0. inversion E0; subst. split; [reflexivity|now left].
  - rewrite E in E0. inversion E0; subst. split; [reflexivity|now left].
  - destruct (Initialize_new_outcome _ _ _ _ _ _ _ Hi) as (Hb & Hlive & Hthis & _).
    destruct Hcase as [(_ & E)|[(_ & _ & E)|[(-> & a & Ha & Hon & E)
                      |(-> & a & h2 & t2 & Ha & Hon & E2 & E)]]];
      rewrite E in E0; inversion E0; subst p h t; clear E0.
    + split; [reflexivity|now left].
    + split; [now symmetry|]. split; [exact Hlive|].
      unfold without_app. cbn [this live]. rewrite Hthis.
      split; [reflexivity|]. split; [reflexivity|].
      exists a. split; [reflexivity|exact Hon].
    + assert (this (without_app h1) = initialized_by jni_env (init_env e)) as Hw.
      { unfold without_app. cbn [this]. rewrite Hthis. reflexivity. }
      revert E2. rewrite RequestDestruction_eq, Hw.
      cbn [initialized_by ui_thread_looper_callback_registered_].
      destruct (Z.eqb_spec (destruction_write_result e) sizeof) as [Hwr|_].
      * intros E2; inversion E2; subst h2 t2; clear E2. rewrite Hw.
        split; [reflexivity|]. right. split; [reflexivity|]. split; [reflexivity|].
        rewrite Hwr.
        exists ([EvReleaseStringUTFChars] ++ t1 ++
                [EvCreateApp (Some a); EvOnInitialize a; EvInvokeOnDestroy a]).
        now rewrite <- !app_assoc.
      * intros E2; inversion E2; subst h2 t2; clear E2.
        split; [reflexivity|now left].
Qed.

(** ** The JNI environment over the life of a context *)

Lemma through_env_app env t1 t2 :
  through_env env (t1 ++ t2) <-> through_env env t1 /\ through_env env t2.
Proof. apply Forall_app. Qed.

Ltac through :=
  unfold through_env;
  repeat (apply Forall_cons; [cbn; try reflexivity; try exact I|]);
  try apply Forall_nil.

Lemma shutdown_events_through_env env c :
  env_kept env (mkHeap c true) -> through_env env (shutdown_events c).
Proof.
  destruct c as [jenv amj am cfg base act cls fin win lp [p0 p1] reg app].
  unfold env_kept, shutdown_events. cbn.
  intros [->|(-> & -> & ->)].
  - destruct app, reg, (p0 =? -1), (p1 =? -1), lp, cls, act, base, cfg, amj;
      cbn; through.
  - destruct app, reg, (p0 =? -1), (p1 =? -1), lp, base, cfg; cbn; through.
Qed.

(** What [Initialize] leaves on a new context: the environment. *)
Lemma Initialize_new_through_env jni_env activity asset_manager e b h t :
  Initialize jni_env activity asset_manager e (mkHeap new_context true) = Ok b h t ->
  through_env jni_env t /\ env_kept jni_env h.
Proof.
  destruct e as [amj am cfg sdk act lcl cls fin lp [[r w]|] addfd].
  all: unfold Initialize; cbn; run_Initialize.
  all: intros E; inversion E; subst b h t; clear E.
  all: unfold shutdown_events, env_kept; cbn.
  all: repeat match goal with
              | |- context [?x =? -1] => is_var x; destruct (x =? -1); cbn
              end.
  all: split; [through|first [left; reflexivity|right; repeat split]].
Qed.

Lemma env_kept_empty env l : env_kept env (mkHeap empty_context l).
Proof. right. repeat split. Qed.

Lemma RequestDestruction_env_step env write_result h :
  exists h' t, RequestDestruction write_result h = Ok tt h' t /\ env_step env h t h'.
Proof.
  rewrite RequestDestruction_eq.
  destruct (ui_thread_looper_callback_registered_ (this h));
    [destruct (write_result =? sizeof)|].
  all: do 2 eexists; (split; [reflexivity|]); intros Hk.
  - split; [through|exact Hk].
  - split; [|apply env_kept_empty].
    rewrite !through_env_app. split; [through|].
    split; [now apply shutdown_events_through_env|through].
  - split; [|apply env_kept_empty].
    rewrite through_env_app.
    split; [now apply shutdown_events_through_env|through].
Qed.

Lemma call_env_step env c h :
  exists h' t, call c h = Ok tt h' t /\ env_step env h t h'.
Proof.
  destruct c as [wr|events rd cmd| |wr|wr]; cbn [call].
  - rewrite NotifyUILoopOfPendingFunctions_eq.
    do 2 eexists. split; [reflexivity|]. intros Hk. split; [|exact Hk].
    destruct (wr =? sizeof); through.
  - unfold bind at 1. cbn [gets]. unfold bind at 1.
    rewrite UIThreadLooperCallback_eq.
    destruct (negb (Z.land events _ =? 0));
      [|destruct (Z.land events ALOOPER_EVENT_INPUT =? 0);
        [|destruct (rd =? sizeof);
          [destruct cmd|destruct (rd =? -1)]]].
    all: cbn [ret]; do 2 eexists; (split; [reflexivity|]); intros Hk.
    all: try (split; [through|exact Hk]).
    split; [|apply env_kept_empty].
    cbn [app]. rewrite !app_nil_r.
    change (EvRead ?a ?b :: ?l) with ([EvRead a b] ++ l).
    rewrite !through_env_app. split; [through|].
    split; [|through].
    apply shutdown_events_through_env. exact Hk.
  - rewrite PlatformQuitFromUIThread_eq.
    do 2 eexists. split; [reflexivity|]. intros Hk. split; [|exact Hk].
    destruct (activity_ (this h)) as [a|] eqn:Ha; cbn [is_null negb andb];
      [|through].
    destruct (is_null (activity_method_finish_ (this h))); cbn [negb]; [through|].
    destruct Hk as [->|(Hact & _)]; [through|congruence].
  - apply RequestDestruction_env_step.
  - rewrite JniActivityOnDestroy_eq.
    destruct (app_ (this h)) as [a|].
    + destruct (RequestDestruction_env_step env wr (without_app h))
        as (h' & t & E & Hstep).
      rewrite E. cbn [after_events]. do 2 eexists. split; [reflexivity|].
      intros Hk. destruct (Hstep Hk) as [Ht Hk'].
      split; [|exact Hk'].
      change (EvInvokeOnDestroy a :: t) with ([EvInvokeOnDestroy a] ++ t).
      rewrite through_env_app. split; [through|exact Ht].
    + apply RequestDestruction_env_step.
Qed.

(** X9.  Over the whole life of a context, every JNI call the context makes
    ([NewGlobalRef], [DeleteGlobalRef], [DeleteLocalRef], the [finish] call)
    goes through the environment the entry point was given.  In particular
    [Shutdown], which ends by clearing [ui_thread_jni_env_], and
    [PlatformQuitFromUIThread] never make a JNI call through the null
    pointer, whatever calls are made on the object and in whatever order. *)
Theorem jni_calls_go_through_the_given_env
    jni_env activity asset_manager e cs :
  through_env jni_env (trace_of (lifetime jni_env activity asset_manager e cs)).
Proof.
  assert (forall h, exists h' t,
            calls cs h = Ok tt h' t /\ env_step jni_env h t h') as Hcalls.
  { apply calls_steps.
    - intros h Hk. split; [apply Forall_nil|exact Hk].
    - intros h1 t1 h2 t2 h3 H1 H2 Hk.
      destruct (H1 Hk) as [Ht1 Hk2]. destruct (H2 Hk2) as [Ht2 Hk3].
      split; [|exact Hk3]. apply through_env_app. now split.
    - intros c h _. apply call_env_step. }
  unfold lifetime.
  destruct (entry_cases jni_env activity asset_manager e)
    as [(Hs & msg & E)
       |[(s & Hs & Hc & msg & E)
        |(s & app_creator & b & h & t & Hs & Hc & Hi & Hcase)]].
  - destruct (Hcalls no_object) as (h' & t' & E' & Hstep).
    rewrite (bind_Ok _ _ _ _ _ _ E), E'. cbn [trace_of].
    apply through_env_app. split; [through|].
    apply Hstep. apply env_kept_empty.
  - destruct (Hcalls no_object) as (h' & t' & E' & Hstep).
    rewrite (bind_Ok _ _ _ _ _ _ E), E'. cbn [trace_of].
    apply through_env_app. split; [through|].
    apply Hstep. apply env_kept_empty.
  - destruct (Initialize_new_through_env _ _ _ _ _ _ _ Hi) as [Ht Hk].
    destruct Hcase as [(_ & E)|[(_ & _ & E)|[(_ & a & _ & _ & E)
                      |(_ & a & h2 & t2 & _ & _ & E2 & E)]]].
    + destruct (Hcalls (mkHeap empty_context false)) as (h' & t' & E' & Hstep).
      rewrite (bind_Ok _ _ _ _ _ _ E), E'. cbn [trace_of].
      rewrite !through_env_app. repeat split; [through|exact Ht|through|].
      apply Hstep. apply env_kept_empty.
    + unfold bind. rewrite E. cbn [trace_of].
      rewrite !through_env_app. repeat split; [through|exact Ht|through].
    + destruct (Hcalls (mkHeap (set_app_ (Some a) (this h)) (live h)))
        as (h' & t' & E' & Hstep).
      rewrite (bind_Ok _ _ _ _ _ _ E), E'. cbn [trace_of].
      rewrite !through_env_app. repeat split; [through|exact Ht|through|].
      apply Hstep. exact Hk.
    + destruct (RequestDestruction_env_step jni_env (destruction_write_result e)
                  (without_app h)) as (h2' & t2' & E2' & Hstep2).
      rewrite E2 in E2'. inversion E2'; subst h2' t2'; clear E2'.
      destruct (Hstep2 Hk) as [Ht2 Hk2].
      destruct (Hcalls h2) as (h' & t' & E' & Hstep).
      rewrite (bind_Ok _ _ _ _ _ _ E), E'. cbn [trace_of].
      rewrite !through_env_app. repeat split; [through|exact Ht|through|exact Ht2|].
      apply Hstep. exact Hk2.
Qed.

(** ** Deletion over the life of a context *)

Lemma RequestDestruction_delete_step write_result h :
  live h = true ->
  exists h' t,
    RequestDestruction write_result h = Ok tt h' t /\ delete_step h t h'.
Proof.
  intros Hlive. rewrite RequestDestruction_eq. unfold delete_step.
  destruct (ui_thread_looper_callback_registered_ (this h));
    [destruct (write_result =? sizeof)|].
  all: do 2 eexists; (split; [reflexivity|]); census; rewrite ?Hlive; lia.
Qed.

Lemma call_delete_step c h :
  live h = true ->
  exists h' t, call c h = Ok tt h' t /\ delete_step h t h'.
Proof.
  intros Hlive.
  destruct c as [wr|events rd cmd| |wr|wr]; cbn [call].
  - rewrite NotifyUILoopOfPendingFunctions_eq. unfold delete_step.
    do 2 eexists. split; [reflexivity|].
    destruct (wr =? sizeof); census; lia.
  - unfold bind at 1. cbn [gets]. unfold bind at 1.
    rewrite UIThreadLooperCallback_eq. unfold delete_step.
    destruct (negb (Z.land events _ =? 0));
      [|destruct (Z.land events ALOOPER_EVENT_INPUT =? 0);
        [|destruct (rd =? sizeof);
          [destruct cmd|destruct (rd =? -1)]]].
    all: cbn [ret]; do 2 eexists; (split; [reflexivity|]).
    all: census; rewrite ?Hlive; lia.
  - rewrite PlatformQuitFromUIThread_eq. unfold delete_step.
    do 2 eexists. split; [reflexivity|].
    destruct (negb (is_null (activity_ (this h)))
              && negb (is_null (activity_method_finish_ (this h))))%bool;
      census; lia.
  - now apply RequestDestruction_delete_step.
  - rewrite JniActivityOnDestroy_eq.
    destruct (app_ (this h)) as [a|].
    + destruct (RequestDestruction_delete_step wr (without_app h) Hlive)
        as (h' & t & E & Hstep).
      rewrite E. cbn [after_events]. do 2 eexists. split; [reflexivity|].
      unfold delete_step in *. census. lia.
    + now apply RequestDestruction_delete_step.
Qed.

Lemma calls_delete_step cs h :
  exists h' t, calls cs h = Ok tt h' t /\ delete_step h t h'.
Proof.
  revert h. apply calls_steps.
  - intros h. unfold delete_step. census. lia.
  - intros h1 t1 h2 t2 h3. unfold delete_step. census. lia.
  - intros c h Hlive. now apply call_delete_step.
Qed.

(** X10.  A context is never deleted twice.  Over the whole life of a
    context [operator delete] is reached at most once, and when the run
    returns, the deletions made plus the object still alive add up to the
    one object the entry point made (none if it never got to [new]): the
    object is either still there or has been deleted exactly once. *)
Theorem context_deleted_at_most_once
    jni_env activity asset_manager e cs :
  (count is_OperatorDelete
     (trace_of (lifetime jni_env activity asset_manager e cs)) <= 1)%nat
  /\ (forall h t,
        lifetime jni_env activity asset_manager e cs = Ok tt h t ->
        (count is_OperatorDelete t + alive h =
           if creates_context e then 1 else 0)%nat).
Proof.
  assert (match lifetime jni_env activity asset_manager e cs with
          | Ok _ h t =>
              (count is_OperatorDelete t + alive h =
                 if creates_context e then 1 else 0)%nat
          | Crash _ t => count is_OperatorDelete t = 0%nat
          end) as H.
  { unfold lifetime, creates_context.
    destruct (entry_cases jni_env activity asset_manager e)
      as [(Hs & msg & E)
         |[(s & Hs & Hc & msg & E)
          |(s & app_creator & b & h & t & Hs & Hc & Hi & Hcase)]].
    - destruct (calls_delete_step cs no_object) as (h' & t' & E' & Hstep).
      rewrite (bind_Ok _ _ _ _ _ _ E), E', Hs.
      unfold delete_step in Hstep. census. lia.
    - destruct (calls_delete_step cs no_object) as (h' & t' & E' & Hstep).
      rewrite (bind_Ok _ _ _ _ _ _ E), E', Hs, Hc.
      unfold delete_step in Hstep. census. lia.
    - rewrite Hs, Hc. cbn [is_null negb].
      destruct (Initialize_new_outcome _ _ _ _ _ _ _ Hi)
        as (_ & Hlive & _ & _ & Hdel).
      destruct Hcase as [(_ & E)|[(_ & _ & E)|[(_ & a & _ & _ & E)
                        |(_ & a & h2 & t2 & _ & _ & E2 & E)]]].
      + destruct (calls_delete_step cs (mkHeap empty_context false))
          as (h' & t' & E' & Hstep).
        rewrite (bind_Ok _ _ _ _ _ _ E), E'.
        unfold delete_step in Hstep. census. lia.
      + unfold bind. rewrite E. census. lia.
      + destruct (calls_delete_step cs
                    (mkHeap (set_app_ (Some a) (this h)) (live h)))
          as (h' & t' & E' & Hstep).
        rewrite (bind_Ok _ _ _ _ _ _ E), E'.
        unfold delete_step in Hstep. census. rewrite Hlive in Hstep. lia.
      + destruct (RequestDestruction_delete_step (destruction_write_result e)
                    (without_app h) Hlive) as (h2' & t2' & E2' & Hstep2).
        rewrite E2 in E2'. inversion E2'; subst h2' t2'; clear E2'.
        destruct (calls_delete_step cs h2) as (h' & t' & E' & Hstep).
        rewrite (bind_Ok _ _ _ _ _ _ E), E'.
        unfold delete_step in Hstep, Hstep2. census. rewrite Hlive in Hstep2.
        lia. }
  split.
  - destruct (lifetime jni_env activity asset_manager e cs); cbn [trace_of].
    + destruct (creates_context e); lia.
    + lia.
  - intros h t E. rewrite E in H. exact H.
Qed.

(** ** Descriptors and the looper over the life of a context *)

Lemma ledger_run_app l t1 t2 :
  ledger_run l (t1 ++ t2) =
    match ledger_run l t1 with
    | Some l' => ledger_run l' t2
    | None => None
    end.
Proof.
  revert l. induction t1 as [|e t1 IH]; intros l; cbn [app ledger_run].
  - reflexivity.
  - destruct (ledger_step l e); [apply IH|reflexivity].
Qed.

Lemma ledger_run_after l t1 l1 t2 l2 :
  ledger_run l t1 = Some l1 -> ledger_run l1 t2 = Some l2 ->
  ledger_run l (t1 ++ t2) = Some l2.
Proof. intros H1 H2. now rewrite ledger_run_app, H1. Qed.

Ltac ledger_facts p0 p1 H0 H1 H01 :=
  let E0 := fresh "E0" in
  let E1 := fresh "E1" in
  let E01 := fresh "E01" in
  let E10 := fresh "E10" in
  assert ((p0 =? -1) = false) as E0 by (now apply Z.eqb_neq);
  assert ((p1 =? -1) = false) as E1 by (now apply Z.eqb_neq);
  assert ((p0 =? p1) = false) as E01 by (now apply Z.eqb_neq);
  assert ((p1 =? p0) = false) as E10 by (apply Z.eqb_neq; congruence);
  repeat (progress (cbn; rewrite ?E0, ?E1, ?E01, ?E10, ?Z.eqb_refl, ?Pos.eqb_refl)).

Lemma shutdown_events_ledger c :
  ready c -> ledger_run (ledger_of c) (shutdown_events c) = Some empty_ledger.
Proof.
  destruct c as [jenv amj am cfg base act cls fin win lp [p0 p1] reg app].
  unfold ready, shutdown_events, ledger_of, is_open_fd. cbn.
  intros (H0 & H1 & H01 & Hlp).
  destruct lp as [lp|]; [|now elim Hlp].
  destruct app, reg, cls, act, base, cfg, amj; ledger_facts p0 p1 H0 H1 H01;
    reflexivity.
Qed.

(** What [Initialize] leaves on a new context: the ledger. *)
Lemma Initialize_new_ledger jni_env activity asset_manager e b h t :
  pipe_ok e ->
  Initialize jni_env activity asset_manager e (mkHeap new_context true) = Ok b h t ->
  ledger_run empty_ledger t = Some (ledger_of (this h))
  /\ (b = true -> ready (this h)).
Proof.
  destruct e as [amj am cfg sdk act lcl cls fin lp [[r w]|] addfd];
    unfold pipe_ok; cbn [pipe_result].
  - intros (H0 & H1 & H01).
    unfold Initialize; cbn; run_Initialize.
    all: intros E; inversion E; subst b h t; clear E.
    all: unfold shutdown_events, ledger_of, is_open_fd, ready, empty_ledger.
    all: ledger_facts r w H0 H1 H01.
    all: split; [reflexivity|intros Hb; try discriminate Hb].
    repeat split; try assumption. discriminate.
  - intros _.
    unfold Initialize; cbn; run_Initialize.
    all: intros E; inversion E; subst b h t; clear E.
    all: unfold shutdown_events, ledger_of, is_open_fd, ready, empty_ledger; cbn.
    all: rewrite ?Pos.eqb_refl; cbn.
    all: split; [reflexivity|intros Hb; discriminate Hb].
Qed.

Lemma ledger_kept_nil h : ledger_kept h [] h.
Proof.
  split; [now split|]. intros Hlive Hready. split; [reflexivity|].
  left. now split.
Qed.

Lemma ledger_kept_app h1 t1 h2 t2 h3 :
  ledger_kept h1 t1 h2 -> ledger_kept h2 t2 h3 -> ledger_kept h1 (t1 ++ t2) h3.
Proof.
  intros [D1 L1] [D2 L2]. split.
  - intros Hd. destruct (D1 Hd) as [-> ->]. now apply D2.
  - intros Hlive Hready.
    destruct (L1 Hlive Hready) as [Hrun1 [[Hl2 Hr2]|[Hl2 He2]]].
    + destruct (L2 Hl2 Hr2) as [Hrun2 Hend].
      split; [|exact Hend]. eapply ledger_run_after; eassumption.
    + destruct (D2 Hl2) as [-> ->]. rewrite app_nil_r.
      split; [exact Hrun1|]. right. now split.
Qed.

Ltac ready_looper h Hready :=
  let lp := fresh "lp" in
  let Hlp := fresh "Hlp" in
  destruct (ui_thread_looper_ (this h)) as [lp|] eqn:Hlp;
  [|exfalso; destruct Hready as (_ & _ & _ & Hn); now apply Hn].

Lemma write_ledger h command write_result :
  ready (this h) ->
  ledger_step (ledger_of (this h))
    (EvWrite (snd (ui_thread_looper_callback_pipe_ (this h))) command write_result) =
    Some (ledger_of (this h)).
Proof.
  intros (H0 & H1 & H01 & _). unfold ledger_of, is_open_fd.
  ledger_facts (fst (ui_thread_looper_callback_pipe_ (this h)))
                 (snd (ui_thread_looper_callback_pipe_ (this h))) H0 H1 H01.
  reflexivity.
Qed.

Lemma read_ledger h read_result :
  ready (this h) ->
  ledger_step (ledger_of (this h))
    (EvRead (fst (ui_thread_looper_callback_pipe_ (this h))) read_result) =
    Some (ledger_of (this h)).
Proof.
  intros (H0 & H1 & H01 & _). unfold ledger_of, is_open_fd.
  ledger_facts (fst (ui_thread_looper_callback_pipe_ (this h)))
               (snd (ui_thread_looper_callback_pipe_ (this h))) H0 H1 H01.
  reflexivity.
Qed.

Lemma wake_ledger h :
  ready (this h) ->
  ledger_step (ledger_of (this h)) (EvLooperWake (ui_thread_looper_ (this h))) =
    Some (ledger_of (this h)).
Proof.
  intros Hready. unfold ledger_of.
  ready_looper h Hready.
  cbn. now rewrite Pos.eqb_refl.
Qed.

Lemma delete_ledger c :
  ready c ->
  ledger_run (ledger_of c) (shutdown_events c ++ [EvOperatorDelete]) =
    Some (ledger_of empty_context).
Proof.
  intros Hready. rewrite ledger_run_app, (shutdown_events_ledger _ Hready).
  reflexivity.
Qed.

Lemma gone_ledger_kept h t :
  live h = true ->
  (ready (this h) -> ledger_run (ledger_of (this h)) t = Some (ledger_of empty_context)) ->
  ledger_kept h t (mkHeap empty_context false).
Proof.
  intros Hlive Hrun. split; [congruence|].
  intros _ Hready. split; [now apply Hrun|]. right. now split.
Qed.

Lemma same_ledger_kept h t h' :
  live h = true -> live h' = true ->
  ledger_of (this h') = ledger_of (this h) ->
  (ready (this h) -> ready (this h')) ->
  (ready (this h) -> ledger_run (ledger_of (this h)) t = Some (ledger_of (this h))) ->
  ledger_kept h t h'.
Proof.
  intros Hlive Hlive' Hsame Hr Hrun. split; [congruence|].
  intros _ Hready. rewrite Hsame. split; [now apply Hrun|]. left.
  split; [exact Hlive'|now apply Hr].
Qed.

Lemma RequestDestruction_ledger_kept write_result h :
  live h = true ->
  exists h' t,
    RequestDestruction write_result h = Ok tt h' t /\ ledger_kept h t h'.
Proof.
  intros Hlive. rewrite RequestDestruction_eq.
  destruct (ui_thread_looper_callback_registered_ (this h));
    [destruct (write_result =? sizeof)|].
  all: do 2 eexists; (split; [reflexivity|]).
  - apply same_ledger_kept; try assumption; try reflexivity; [exact (fun H => H)|].
    intros Hready. cbn [ledger_run].
    rewrite (write_ledger _ _ _ Hready), (wake_ledger _ Hready). reflexivity.
  - apply gone_ledger_kept; [assumption|]. intros Hready.
    cbn [app ledger_run]. rewrite (write_ledger _ _ _ Hready).
    cbn [ledger_step]. now apply delete_ledger.
  - apply gone_ledger_kept; [assumption|]. intros Hready.
    now apply delete_ledger.
Qed.

Lemma call_ledger_kept c h :
  live h = true ->
  exists h' t, call c h = Ok tt h' t /\ ledger_kept h t h'.
Proof.
  intros Hlive.
  destruct c as [wr|events rd cmd| |wr|wr]; cbn [call].
  - rewrite NotifyUILoopOfPendingFunctions_eq.
    do 2 eexists. split; [reflexivity|].
    apply same_ledger_kept; try assumption; try reflexivity; [exact (fun H => H)|].
    intros Hready. cbn [ledger_run]. rewrite (write_ledger _ _ _ Hready).
    destruct (wr =? sizeof); cbn [ledger_run].
    + now rewrite (wake_ledger _ Hready).
    + reflexivity.
  - unfold bind at 1. cbn [gets]. unfold bind at 1.
    rewrite UIThreadLooperCallback_eq.
    destruct (negb (Z.land events _ =? 0));
      [|destruct (Z.land events ALOOPER_EVENT_INPUT =? 0);
        [|destruct (rd =? sizeof);
          [destruct cmd|destruct (rd =? -1)]]].
    all: cbn [ret]; do 2 eexists; (split; [reflexivity|]).
    all: rewrite ?app_nil_r.
    + apply same_ledger_kept; try assumption; try reflexivity; exact (fun H => H).
    + apply ledger_kept_nil.
    + apply gone_ledger_kept; [assumption|]. intros Hready.
      cbn [app ledger_run]. rewrite (read_ledger _ _ Hready).
      exact (delete_ledger (this (unregistered h)) Hready).
    + apply same_ledger_kept; try assumption; try reflexivity; [exact (fun H => H)|].
      intros Hready. cbn [app ledger_run]. rewrite (read_ledger _ _ Hready). reflexivity.
    + apply same_ledger_kept; try assumption; try reflexivity; [exact (fun H => H)|].
      intros Hready. cbn [app ledger_run]. rewrite (read_ledger _ _ Hready). reflexivity.
    + apply same_ledger_kept; try assumption; try reflexivity; [exact (fun H => H)|].
      intros Hready. cbn [app ledger_run]. rewrite (read_ledger _ _ Hready). reflexivity.
  - rewrite PlatformQuitFromUIThread_eq.
    do 2 eexists. split; [reflexivity|].
    apply same_ledger_kept; try assumption; try reflexivity; [exact (fun H => H)|].
    intros _.
    destruct (negb (is_null (activity_ (this h)))
              && negb (is_null (activity_method_finish_ (this h))))%bool;
      reflexivity.
  - now apply RequestDestruction_ledger_kept.
  - rewrite JniActivityOnDestroy_eq.
    destruct (app_ (this h)) as [a|].
    + destruct (RequestDestruction_ledger_kept wr (without_app h) Hlive)
        as (h' & t & E & Hkept).
      rewrite E. cbn [after_events]. do 2 eexists. split; [reflexivity|].
      destruct Hkept as [_ Hk]. split; [congruence|].
      intros _ Hready. cbn [app ledger_run ledger_step].
      exact (Hk Hlive Hready).
    + now apply RequestDestruction_ledger_kept.
Qed.

Lemma calls_ledger_kept cs h :
  exists h' t, calls cs h = Ok tt h' t /\ ledger_kept h t h'.
Proof.
  revert h. apply calls_steps.
  - apply ledger_kept_nil.
  - apply ledger_kept_app.
  - apply call_ledger_kept.
Qed.

Lemma calls_after_ledger l0 t0 h cs :
  ledger_run l0 t0 = Some (ledger_of (this h)) ->
  (live h = true /\ ready (this h)) \/ (live h = false /\ this h = empty_context) ->
  exists h' t',
    calls cs h = Ok tt h' t'
    /\ ledger_run l0 (t0 ++ t') = Some (ledger_of (this h'))
    /\ (live h' = false -> this h' = empty_context).
Proof.
  intros Hrun Hstate.
  destruct (calls_ledger_kept cs h) as (h' & t' & E & Hdead & Hlive).
  exists h', t'. split; [exact E|].
  destruct Hstate as [[Hl Hr]|[Hl He]].
  - destruct (Hlive Hl Hr) as [Hrun' Hend].
    split; [eapply ledger_run_after; eassumption|].
    intros Hd. destruct Hend as [[Hl' _]|[_ He']]; [congruence|exact He'].
  - destruct (Hdead Hl) as [-> ->]. rewrite app_nil_r.
    split; [exact Hrun|]. intros _. exact He.
Qed.

(** X11.  Suppose [pipe], when it succeeds, returns two different
    descriptors other than -1.  Then over the whole life of a context,
    whatever calls are made on the object, a descriptor is read, written,
    closed, given to or taken from the looper only while it is open (so none
    is used after [close] and none is closed twice); the looper is woken,
    given a descriptor or released only while it is the one acquired, and is
    never acquired twice.  When the run returns, what is still open and held
    is what the members say; once the object has been deleted, nothing is:
    both ends of the pipe are closed and the looper is released. *)
Theorem descriptors_and_looper_used_only_while_held
    jni_env activity asset_manager e cs :
  pipe_ok (init_env e) ->
  exists l,
    ledger_run empty_ledger
      (trace_of (lifetime jni_env activity asset_manager e cs)) = Some l
    /\ (forall h t,
          lifetime jni_env activity asset_manager e cs = Ok tt h t ->
          l = ledger_of (this h)
          /\ (live h = false -> l = empty_ledger)).
Proof.
  intros Hpipe.
  assert (forall t0 h0 p,
            JniActivityInitializeWindowedAppOnCreate
              jni_env activity asset_manager e no_object = Ok p h0 t0 ->
            ledger_run empty_ledger t0 = Some (ledger_of (this h0)) ->
            (live h0 = true /\ ready (this h0))
            \/ (live h0 = false /\ this h0 = empty_context) ->
            exists l,
              ledger_run empty_ledger
                (trace_of (lifetime jni_env activity asset_manager e cs)) = Some l
              /\ (forall h t,
                    lifetime jni_env activity asset_manager e cs = Ok tt h t ->
                    l = ledger_of (this h)
                    /\ (live h = false -> l = empty_ledger))) as Hdone.
  { intros t0 h0 p E Hrun Hstate.
    destruct (calls_after_ledger _ _ _ cs Hrun Hstate) as (h' & t' & E' & Hrun' & Hend).
    exists (ledger_of (this h')).
    unfold lifetime. rewrite (bind_Ok _ _ _ _ _ _ E), E'. cbn [trace_of].
    split; [exact Hrun'|].
    intros h t Eq. inversion Eq; subst h t. split; [reflexivity|].
    intros Hd. now rewrite (Hend Hd). }
  destruct (entry_cases jni_env activity asset_manager e)
    as [(Hs & msg & E)
       |[(s & Hs & Hc & msg & E)
        |(s & app_creator & b & h & t & Hs & Hc & Hi & Hcase)]].
  - apply (Hdone _ _ _ E); [reflexivity|]. right. now split.
  - apply (Hdone _ _ _ E); [reflexivity|]. right. now split.
  - destruct (Initialize_new_ledger _ _ _ _ _ _ _ Hpipe Hi) as [Hrun Hready].
    destruct (Initialize_new_outcome _ _ _ _ _ _ _ Hi) as (_ & Hlive & Hthis & _).
    assert (ledger_run empty_ledger ([EvReleaseStringUTFChars] ++ t) =
              Some (ledger_of (this h))) as Hrun0 by exact Hrun.
    destruct Hcase as [(-> & E)|[(-> & _ & E)|[(-> & a & _ & _ & E)
                      |(-> & a & h2 & t2 & _ & _ & E2 & E)]]].
    + apply (Hdone _ _ _ E); [|right; now split].
      rewrite app_assoc. eapply ledger_run_after; [exact Hrun0|].
      rewrite Hthis. reflexivity.
    + exists (ledger_of (this h)). unfold lifetime, bind. rewrite E.
      cbn [trace_of]. split; [|discriminate].
      rewrite app_assoc. eapply ledger_run_after; [exact Hrun0|reflexivity].
    + apply (Hdone _ _ _ E); [|left; split; [exact Hlive|exact (Hready eq_refl)]].
      rewrite app_assoc. eapply ledger_run_after; [exact Hrun0|reflexivity].
    + destruct (RequestDestruction_ledger_kept (destruction_write_result e)
                  (without_app h) Hlive) as (h2' & t2' & E2' & _ & Hk).
      rewrite E2 in E2'. inversion E2'; subst h2' t2'; clear E2'.
      destruct (Hk Hlive (Hready eq_refl)) as [Hrun2 Hend].
      apply (Hdone _ _ _ E); [|exact Hend].
      rewrite app_assoc. eapply ledger_run_after; [exact Hrun0|].
      change ([EvCreateApp (Some a); EvOnInitialize a; EvInvokeOnDestroy a] ++ t2)
        with (EvCreateApp (Some a) :: EvOnInitialize a :: EvInvokeOnDestroy a :: t2).
      cbn [ledger_run ledger_step]. exact Hrun2.
Qed.

(** ** Pending-function requests *)



(** ** Construction and destruction together *)

Lemma closed_fds_app t1 t2 : closed_fds (t1 ++ t2) = closed_fds t1 ++ closed_fds t2.
Proof.
  induction t1 as [|e t1 IH]; cbn [List.app closed_fds]; [reflexivity|].
  destruct e; cbn [List.app]; now rewrite ?IH.
Qed.

(** [Shutdown] only gives back: it creates no reference and no
    configuration, opens no descriptor, acquires no looper and initializes
    nothing. *)
Lemma shutdown_events_creates_nothing c :
  global_refs_created (shutdown_events c) = []
  /\ configurations_created (shutdown_events c) = []
  /\ opened_fds (shutdown_events c) = []
  /\ count is_InitializeAndroidApp (shutdown_events c) = 0%nat.
Proof.
  destruct c as [jenv amj am cfg base act cls fin win lp [p0 p1] reg app0].
  unfold shutdown_events, global_refs_created, configurations_created,
    opened_fds, count.
  cbn.
  destruct app0, reg, (p0 =? -1), (p1 =? -1), lp, cls, act, base, cfg, amj;
    repeat split; reflexivity.
Qed.

(** What [Initialize] has acquired on a new context is what it has released
    itself together with what a [Shutdown] of the context it leaves would
    release. *)
Lemma Initialize_new_resources jni_env activity asset_manager e b h t :
  Initialize jni_env activity asset_manager e (mkHeap new_context true) = Ok b h t ->
  ui_thread_looper_callback_registered_ (this h) = all_steps_succeed e
  /\ global_refs_created t =
       rev (global_refs_deleted t ++ global_refs_deleted (shutdown_events (this h)))
  /\ configurations_created t =
       configurations_deleted t ++ configurations_deleted (shutdown_events (this h))
  /\ count is_InitializeAndroidApp t =
       (count is_ShutdownAndroidApp t
        + count is_ShutdownAndroidApp (shutdown_events (this h)))%nat
  /\ count is_LooperAcquire t =
       (count is_LooperRelease t
        + count is_LooperRelease (shutdown_events (this h)))%nat
  /\ filter is_open_fd (opened_fds t) =
       closed_fds t ++ closed_fds (shutdown_events (this h))
  /\ count is_LooperRemoveFd t = 0%nat.
Proof.
  destruct e as [amj am cfg sdk act lcl cls fin lp [[r w]|] addfd].
  all: unfold Initialize; cbn; run_Initialize.
  all: intros E; inversion E; subst b h t; clear E.
  all: finish_Initialize.
Qed.

(** X13.  Whatever the platform answers, [Initialize] on a new context
    followed by [Shutdown], which is what the destructor runs, leaves every
    member empty and nothing acquired: the global references are deleted in
    the reverse of the order they were created in, every configuration
    created is deleted, the Android base is shut down as often as it was
    initialized, the looper is released as often as it was acquired, and
    both ends of the pipe are closed.  [ALooper_removeFd] is called once if
    the descriptor had been added, and not otherwise. *)
Theorem Initialize_then_Shutdown_leaks_nothing
    jni_env activity asset_manager e :
  exists t,
    (Initialize jni_env activity asset_manager e ;; Shutdown)
      (mkHeap new_context true) = Ok tt (mkHeap empty_context true) t
    /\ global_refs_deleted t = rev (global_refs_created t)
    /\ configurations_deleted t = configurations_created t
    /\ count is_ShutdownAndroidApp t = count is_InitializeAndroidApp t
    /\ releases t = acquires t
    /\ closed_fds t = filter is_open_fd (opened_fds t)
    /\ count is_LooperRemoveFd t =
         (if all_steps_succeed e then 1 else 0)%nat.
Proof.
  destruct (Initialize_new jni_env activity asset_manager e)
    as (b & h & t & E & Hlive & _).
  destruct (Initialize_new_resources _ _ _ _ _ _ _ E)
    as (Hreg & Hrefs & Hcfg & Hbase & Hloop & Hfds & Hrem).
  destruct (shutdown_events_creates_nothing (this h))
    as (Srefs & Scfg & Sfds & Sbase).
  exists (t ++ shutdown_events (this h)).
  rewrite (bind_Ok _ _ _ _ _ _ E), Shutdown_eq, Hlive.
  split; [reflexivity|].
  unfold global_refs_deleted, global_refs_created, configurations_deleted,
    configurations_created, releases, acquires, opened_fds in *.
  rewrite !flat_map_app, !count_app, closed_fds_app, shutdown_events_removes.
  rewrite Srefs, Scfg, Sfds, Sbase, shutdown_events_acquires, !app_nil_r.
  rewrite Hrefs, rev_involutive, Hcfg, Hbase, Hloop, Hfds, Hrem, Hreg.
  repeat split; try reflexivity; lia.
Qed.

End AndroidWindowedAppContext.


(** ** Concrete runs *)

(** C1, as stated, fails: the callback is registered, the [write] of the
    destruction command returns -1, and the object is shut down and deleted
    before [RequestDestruction] returns. *)
Lemma RequestDestruction_registered_write_failure_deletes :
  ui_thread_looper_callback_registered_ initialized_context = true
  /\ RequestDestruction 1 (-1) (mkHeap initialized_context true) =
       Ok tt (mkHeap empty_context false)
         [EvWrite 6 kDestroy (-1);
          EvXELOGE
            "AndroidWindowedAppContext: Failed to write a destruction command to the UI thread looper callback pipe";
          EvLooperRemoveFd (Some 17%positive) 5;
          EvClose 5;
          EvClose 6;
          EvLooperRelease (Some 17%positive);
          EvDeleteGlobalRef (Some 1%positive) (Some 15%positive);
          EvDeleteGlobalRef (Some 1%positive) (Some 13%positive);
          EvShutdownAndroidAppFromMainThread;
          EvConfigurationDelete (Some 12%positive);
          EvDeleteGlobalRef (Some 1%positive) (Some 10%positive);
          EvOperatorDelete]
  /\ live (mkHeap empty_context false) = false.
Proof. repeat split. Qed.

Lemma RequestDestruction_registered_defers_witness :
  ui_thread_looper_callback_registered_ initialized_context = true
  /\ 1 = sizeof 1
  /\ RequestDestruction 1 1 (mkHeap initialized_context true) =
       Ok tt (mkHeap initialized_context true)
         [EvWrite 6 kDestroy 1; EvLooperWake (Some 17%positive)].
Proof.
  split; [reflexivity|]. split; [reflexivity|].
  exact (proj1 (RequestDestruction_registered_defers 1 1
                  (mkHeap initialized_context true) eq_refl eq_refl)).
Defined.

Lemma RequestDestruction_unregistered_deletes_witness :
  ui_thread_looper_callback_registered_ unregistered_context = false
  /\ exists t,
       RequestDestruction 1 1 (mkHeap unregistered_context true) =
         Ok tt (mkHeap empty_context false) t
       /\ t = shutdown_events unregistered_context ++ [EvOperatorDelete]
       /\ count is_OperatorDelete t = 1%nat
       /\ count is_Write t = 0%nat.
Proof.
  split; [reflexivity|].
  exact (RequestDestruction_unregistered_deletes 1 1
           (mkHeap unregistered_context true) eq_refl).
Defined.

Lemma UIThreadLooperCallback_fatal_witness :
  (exists reads msg,
     UIThreadLooperCallback 1 5 (Z.lor ALOOPER_EVENT_INPUT ALOOPER_EVENT_HANGUP)
       1 kDestroy (mkHeap initialized_context true) =
       Ok 0 (mkHeap unregistered_context true)
         (reads ++ [EvXELOGE msg; EvQuitFromUIThread])
     /\ (reads = [] \/ reads = [EvRead 5 (-1)])
     /\ ui_thread_looper_callback_registered_ unregistered_context = false
     /\ count is_QuitFromUIThread (reads ++ [EvXELOGE msg; EvQuitFromUIThread]) = 1%nat)
  /\ (exists reads msg,
        UIThreadLooperCallback 1 5 ALOOPER_EVENT_INPUT
          (-1) kDestroy (mkHeap initialized_context true) =
          Ok 0 (mkHeap unregistered_context true)
            (reads ++ [EvXELOGE msg; EvQuitFromUIThread])
        /\ (reads = [] \/ reads = [EvRead 5 (-1)])
        /\ ui_thread_looper_callback_registered_ unregistered_context = false
        /\ count is_QuitFromUIThread (reads ++ [EvXELOGE msg; EvQuitFromUIThread]) = 1%nat).
Proof.
  split.
  - apply (UIThreadLooperCallback_fatal 1 5
             (Z.lor ALOOPER_EVENT_INPUT ALOOPER_EVENT_HANGUP) 1 kDestroy
             (mkHeap initialized_context true)).
    left. right. left. vm_compute. discriminate.
  - apply (UIThreadLooperCallback_fatal 1 5 ALOOPER_EVENT_INPUT (-1) kDestroy
             (mkHeap initialized_context true)).
    right. split; [|reflexivity]. vm_compute. left. reflexivity.
Defined.

Lemma UIThreadLooperCallback_partial_read_witness :
  In (EvRead 5 2)
     (trace_of (UIThreadLooperCallback 4 5 ALOOPER_EVENT_INPUT 2 kDestroy
                  (mkHeap initialized_context true)))
  /\ 2 <> sizeof 4
  /\ 2 <> -1
  /\ UIThreadLooperCallback 4 5 ALOOPER_EVENT_INPUT 2 kDestroy
       (mkHeap initialized_context true) =
       Ok 1 (mkHeap initialized_context true) [EvRead 5 2].
Proof.
  assert (In (EvRead 5 2)
            (trace_of (UIThreadLooperCallback 4 5 ALOOPER_EVENT_INPUT 2 kDestroy
                         (mkHeap initialized_context true)))) as Hread.
  { vm_compute. left. reflexivity. }
  assert (2 <> sizeof 4) as Hsize by (vm_compute; discriminate).
  assert (2 <> -1) as Herr by discriminate.
  split; [exact Hread|]. split; [exact Hsize|]. split; [exact Herr|].
  exact (UIThreadLooperCallback_partial_read 4 5 ALOOPER_EVENT_INPUT 2 kDestroy
           (mkHeap initialized_context true) Hread Hsize Herr).
Defined.

Lemma NotifyUILoopOfPendingFunctions_write_failure_witness :
  -1 <> sizeof 1
  /\ exists msg,
       NotifyUILoopOfPendingFunctions 1 (-1) (mkHeap initialized_context true) =
         Ok tt (mkHeap initialized_context true)
           [EvWrite 6 kExecutePendingFunctions (-1); EvXELOGE msg].
Proof.
  assert (-1 <> sizeof 1) as Hwrite by (vm_compute; discriminate).
  split; [exact Hwrite|].
  exact (NotifyUILoopOfPendingFunctions_write_failure 1 (-1)
           (mkHeap initialized_context true) Hwrite).
Defined.

Lemma OnInitialize_failure_destroys_once_witness :
  destroys
    (trace_of
       (lifetime 1 1%positive (Some 2%positive) (Some 3%positive)
          (failing_app_env 1)
          [CallNotifyUILoopOfPendingFunctions 1;
           CallUIThreadLooperCallback ALOOPER_EVENT_INPUT 1 kDestroy])) = 1%nat.
Proof.
  exact (proj2 (proj2
    (OnInitialize_failure_destroys_once 1 1%positive (Some 2%positive)
       (Some 3%positive) (failing_app_env 1)
       [CallNotifyUILoopOfPendingFunctions 1;
        CallUIThreadLooperCallback ALOOPER_EVENT_INPUT 1 kDestroy]
       "xenia_demo"%string (fun _ => Some failing_app)
       (mkHeap initialized_context true)
       [EvNewGlobalRef (Some 1%positive) (Some 3%positive) (Some 10%positive);
        EvConfigurationNew (Some 12%positive);
        EvConfigurationFromAssetManager (Some 12%positive) (Some 11%positive);
        EvInitializeAndroidAppFromMainThread 30;
        EvNewGlobalRef (Some 1%positive) (Some 2%positive) (Some 13%positive);
        EvNewGlobalRef (Some 1%positive) (Some 14%positive) (Some 15%positive);
        EvDeleteLocalRef (Some 1%positive) (Some 14%positive);
        EvLooperAcquire (Some 17%positive);
        EvPipe (Some (5, 6));
        EvLooperAddFd (Some 17%positive) 5 ALOOPER_POLL_CALLBACK ALOOPER_EVENT_INPUT 1]
       failing_app eq_refl eq_refl eq_refl eq_refl eq_refl))).
Defined.

Lemma fatal_condition_then_teardown_deletes_witness :
  Z.land ALOOPER_EVENT_HANGUP
    (Z.lor ALOOPER_EVENT_ERROR (Z.lor ALOOPER_EVENT_HANGUP ALOOPER_EVENT_INVALID)) <> 0
  /\ exists t,
       (UIThreadLooperCallback 1 5 ALOOPER_EVENT_HANGUP 1 kDestroy ;;
        JniActivityOnDestroy 1 1)
         (mkHeap (set_app_ (Some working_app) initialized_context) true) =
         Ok tt (mkHeap empty_context false) t
       /\ count is_QuitFromUIThread t = 1%nat
       /\ count is_Write t = 0%nat
       /\ count is_LooperRemoveFd t = 0%nat
       /\ count is_OperatorDelete t = 1%nat
       /\ destroys t = 1%nat.
Proof.
  assert (Z.land ALOOPER_EVENT_HANGUP
            (Z.lor ALOOPER_EVENT_ERROR
               (Z.lor ALOOPER_EVENT_HANGUP ALOOPER_EVENT_INVALID)) <> 0) as Hfatal
    by (vm_compute; discriminate).
  split; [exact Hfatal|].
  exact (fatal_condition_then_teardown_deletes 1 5 ALOOPER_EVENT_HANGUP 1 kDestroy 1
           (mkHeap (set_app_ (Some working_app) initialized_context) true)
           (or_introl Hfatal)).
Defined.

Lemma entry_point_never_returns_partial_witness :
  all_steps_succeed (init_env working_app_env) = true
  /\ live (mkHeap (set_app_ (Some working_app) initialized_context) true) = true
  /\ ui_thread_looper_callback_registered_
       (set_app_ (Some working_app) initialized_context) = true
  /\ initialized_context = initialized_by 1%positive (init_env working_app_env)
  /\ exists a,
       app_ (set_app_ (Some working_app) initialized_context) = Some a
       /\ OnInitialize a = true.
Proof.
  assert (JniActivityInitializeWindowedAppOnCreate 1 1%positive (Some 2%positive)
            (Some 3%positive) working_app_env no_object =
            Ok app_context
              (mkHeap (set_app_ (Some working_app) initialized_context) true)
              [EvReleaseStringUTFChars;
               EvNewGlobalRef (Some 1%positive) (Some 3%positive) (Some 10%positive);
               EvConfigurationNew (Some 12%positive);
               EvConfigurationFromAssetManager (Some 12%positive) (Some 11%positive);
               EvInitializeAndroidAppFromMainThread 30;
               EvNewGlobalRef (Some 1%positive) (Some 2%positive) (Some 13%positive);
               EvNewGlobalRef (Some 1%positive) (Some 14%positive) (Some 15%positive);
               EvDeleteLocalRef (Some 1%positive) (Some 14%positive);
               EvLooperAcquire (Some 17%positive);
               EvPipe (Some (5, 6));
               EvLooperAddFd (Some 17%positive) 5 ALOOPER_POLL_CALLBACK
                 ALOOPER_EVENT_INPUT 1;
               EvCreateApp (Some working_app);
               EvOnInitialize working_app]) as Hrun
    by (vm_compute; reflexivity).
  exact (entry_point_never_returns_partial 1 1%positive (Some 2%positive)
           (Some 3%positive) working_app_env _ _ _ Hrun).
Defined.

Lemma descriptors_and_looper_used_only_while_held_witness :
  pipe_ok (init_env working_app_env)
  /\ exists l,
       ledger_run empty_ledger
         (trace_of
            (lifetime 1 1%positive (Some 2%positive) (Some 3%positive)
               working_app_env
               [CallNotifyUILoopOfPendingFunctions 1;
                CallJniActivityOnDestroy 1;
                CallUIThreadLooperCallback ALOOPER_EVENT_INPUT 1 kDestroy])) = Some l
       /\ (forall h t,
             lifetime 1 1%positive (Some 2%positive) (Some 3%positive)
               working_app_env
               [CallNotifyUILoopOfPendingFunctions 1;
                CallJniActivityOnDestroy 1;
                CallUIThreadLooperCallback ALOOPER_EVENT_INPUT 1 kDestroy] =
               Ok tt h t ->
             l = ledger_of (this h)
             /\ (live h = false -> l = empty_ledger)).
Proof.
  assert (pipe_ok (init_env working_app_env)) as Hpipe
    by (unfold pipe_ok; cbn; repeat split; discriminate).
  split; [exact Hpipe|].
  exact (descriptors_and_looper_used_only_while_held 1 1%positive (Some 2%positive)
           (Some 3%positive) working_app_env
           [CallNotifyUILoopOfPendingFunctions 1;
            CallJniActivityOnDestroy 1;
            CallUIThreadLooperCallback ALOOPER_EVENT_INPUT 1 kDestroy] Hpipe).
Defined.


(** ** Worked runs *)

(** The entry point with a working app: the context is returned, registered
    and owning the app. *)
Example entry_point_with_working_app :
  JniActivityInitializeWindowedAppOnCreate 1 1%positive (Some 2%positive)
    (Some 3%positive) working_app_env no_object =
    Ok app_context
      (mkHeap (set_app_ (Some working_app) initialized_context) true)
      [EvReleaseStringUTFChars;
       EvNewGlobalRef (Some 1%positive) (Some 3%positive) (Some 10%positive);
       EvConfigurationNew (Some 12%positive);
       EvConfigurationFromAssetManager (Some 12%positive) (Some 11%positive);
       EvInitializeAndroidAppFromMainThread 30;
       EvNewGlobalRef (Some 1%positive) (Some 2%positive) (Some 13%positive);
       EvNewGlobalRef (Some 1%positive) (Some 14%positive) (Some 15%positive);
       EvDeleteLocalRef (Some 1%positive) (Some 14%positive);
       EvLooperAcquire (Some 17%positive);
       EvPipe (Some (5, 6));
       EvLooperAddFd (Some 17%positive) 5 ALOOPER_POLL_CALLBACK ALOOPER_EVENT_INPUT 1;
       EvCreateApp (Some working_app);
       EvOnInitialize working_app].
Proof. vm_compute. reflexivity. Qed.

(** A whole life: a worker asks for pending functions, the looper runs them,
    the activity is destroyed, and the looper delivers the destruction
    command. *)
Example a_whole_life :
  lifetime 1 1%positive (Some 2%positive) (Some 3%positive) working_app_env
    [CallNotifyUILoopOfPendingFunctions 1;
     CallUIThreadLooperCallback ALOOPER_EVENT_INPUT 1 kExecutePendingFunctions;
     CallJniActivityOnDestroy 1;
     CallUIThreadLooperCallback ALOOPER_EVENT_INPUT 1 kDestroy;
     CallNotifyUILoopOfPendingFunctions 1] =
    Ok tt (mkHeap empty_context false)
      [EvReleaseStringUTFChars;
       EvNewGlobalRef (Some 1%positive) (Some 3%positive) (Some 10%positive);
       EvConfigurationNew (Some 12%positive);
       EvConfigurationFromAssetManager (Some 12%positive) (Some 11%positive);
       EvInitializeAndroidAppFromMainThread 30;
       EvNewGlobalRef (Some 1%positive) (Some 2%positive) (Some 13%positive);
       EvNewGlobalRef (Some 1%positive) (Some 14%positive) (Some 15%positive);
       EvDeleteLocalRef (Some 1%positive) (Some 14%positive);
       EvLooperAcquire (Some 17%positive);
       EvPipe (Some (5, 6));
       EvLooperAddFd (Some 17%positive) 5 ALOOPER_POLL_CALLBACK ALOOPER_EVENT_INPUT 1;
       EvCreateApp (Some working_app);
       EvOnInitialize working_app;
       EvWrite 6 kExecutePendingFunctions 1;
       EvLooperWake (Some 17%positive);
       EvRead 5 1;
       EvExecutePendingFunctionsFromUIThread;
       EvInvokeOnDestroy working_app;
       EvWrite 6 kDestroy 1;
       EvLooperWake (Some 17%positive);
       EvRead 5 1;
       EvClose 5;
       EvClose 6;
       EvLooperRelease (Some 17%positive);
       EvDeleteGlobalRef (Some 1%positive) (Some 15%positive);
       EvDeleteGlobalRef (Some 1%positive) (Some 13%positive);
       EvShutdownAndroidAppFromMainThread;
       EvConfigurationDelete (Some 12%positive);
       EvDeleteGlobalRef (Some 1%positive) (Some 10%positive);
       EvOperatorDelete].
Proof. vm_compute. reflexivity. Qed.

(** [pipe] fails after the looper has been acquired: [Initialize] shuts
    down, which releases the looper, and the entry point deletes the
    context. *)
Example pipe_failure_releases_the_looper :
  JniActivityInitializeWindowedAppOnCreate 1 1%positive (Some 2%positive)
    (Some 3%positive)
    (mkCreateEnv (Some "xenia_demo"%string)
       (fun _ => Some (fun _ => Some working_app)) platform_without_pipe 1)
    no_object =
    Ok nullptr (mkHeap empty_context false)
      [EvReleaseStringUTFChars;
       EvNewGlobalRef (Some 1%positive) (Some 3%positive) (Some 10%positive);
       EvConfigurationNew (Some 12%positive);
       EvConfigurationFromAssetManager (Some 12%positive) (Some 11%positive);
       EvInitializeAndroidAppFromMainThread 30;
       EvNewGlobalRef (Some 1%positive) (Some 2%positive) (Some 13%positive);
       EvNewGlobalRef (Some 1%positive) (Some 14%positive) (Some 15%positive);
       EvDeleteLocalRef (Some 1%positive) (Some 14%positive);
       EvLooperAcquire (Some 17%positive);
       EvPipe None;
       EvXELOGE
         "AndroidWindowedAppContext: Failed to create the UI thread looper callback pipe";
       EvLooperRelease (Some 17%positive);
       EvDeleteGlobalRef (Some 1%positive) (Some 15%positive);
       EvDeleteGlobalRef (Some 1%positive) (Some 13%positive);
       EvShutdownAndroidAppFromMainThread;
       EvConfigurationDelete (Some 12%positive);
       EvDeleteGlobalRef (Some 1%positive) (Some 10%positive);
       EvOperatorDelete].
Proof. vm_compute. reflexivity. Qed.

(** The ledger refuses a descriptor used after [close], a second [close],
    and a looper used after its release. *)
Example ledger_refuses_misuse :
  ledger_run empty_ledger [EvPipe (Some (5, 6)); EvClose 6; EvWrite 6 kDestroy 1] = None
  /\ ledger_run empty_ledger [EvPipe (Some (5, 6)); EvClose 5; EvClose 5] = None
  /\ ledger_run empty_ledger
       [EvLooperAcquire (Some 17%positive); EvLooperRelease (Some 17%positive);
        EvLooperWake (Some 17%positive)] = None
  /\ ledger_run empty_ledger
       [EvLooperAcquire (Some 17%positive); EvLooperAcquire (Some 17%positive)] = None.
Proof. repeat split. Qed.

(** A callback with neither an error nor input does nothing. *)
Example spurious_wake :
  UIThreadLooperCallback 1 5 ALOOPER_EVENT_OUTPUT 1 kDestroy
    (mkHeap initialized_context true) =
    Ok 1 (mkHeap initialized_context true) [].
Proof. reflexivity. Qed.

(** A hang-up wins over readable input: nothing is read. *)
Example hangup_with_input :
  UIThreadLooperCallback 1 5 (Z.lor ALOOPER_EVENT_INPUT ALOOPER_EVENT_HANGUP)
    1 kDestroy (mkHeap initialized_context true) =
    Ok 0 (mkHeap unregistered_context true)
      [EvXELOGE
         "AndroidWindowedAppContext: The UI thread looper callback pipe file descriptor has encountered an error condition during polling";
       EvQuitFromUIThread].
Proof. reflexivity. Qed.

(** A creator that returns an empty pointer. *)
Example InitializeApp_with_null_creator :
  InitializeApp null_creator (mkHeap initialized_context true) =
    Crash NullDereference [EvCreateApp None].
Proof. reflexivity. Qed.

(** [Shutdown] of an initialized context, and once more. *)
Example Shutdown_of_initialized_context :
  Shutdown (mkHeap initialized_context true) =
    Ok tt (mkHeap empty_context true)
      [EvLooperRemoveFd (Some 17%positive) 5;
       EvClose 5;
       EvClose 6;
       EvLooperRelease (Some 17%positive);
       EvDeleteGlobalRef (Some 1%positive) (Some 15%positive);
       EvDeleteGlobalRef (Some 1%positive) (Some 13%positive);
       EvShutdownAndroidAppFromMainThread;
       EvConfigurationDelete (Some 12%positive);
       EvDeleteGlobalRef (Some 1%positive) (Some 10%positive)]
  /\ Shutdown (mkHeap empty_context true) = Ok tt (mkHeap empty_context true) [].
Proof. split; reflexivity. Qed.
